(** * homework_bot: the polling loop of [homework.py]

    A shallow embedding of [homework.py] and the properties of its
    polling loop.  Python values decoded from JSON are the inductive
    type [json]; a dict is a [gmap] with string keys.  Strings are byte
    strings holding the UTF-8 encoding of the Python text.  Effects
    (logging, the HTTP request, JSON decoding of the body, the Telegram
    call, sleeping) are events appended to a trace; exceptions are
    values of the error monad [M].  The collaborators ([requests],
    [telegram], the clock) are oracles collected in the records
    [startup] and [env]. *)

From Stdlib Require Import ZArith String Ascii List Floats DecimalString.
From stdpp Require Import base option list gmap strings.

Set Warnings "-register-all".

(** ** Python values *)

(** What [response.json()] can return: [None], [bool], [int], [float],
    [str], [list] and [dict] with [str] keys. *)
Inductive json : Type :=
  | JNull
  | JBool (b : bool)
  | JInt (z : Z)
  | JFloat (f : float)
  | JStr (s : string)
  | JList (l : list json)
  | JDict (d : gmap string json).

(** ** Exceptions *)

(** The exception classes the program and its collaborators raise.
    All of them derive from [Exception]; signals that end the process
    from outside ([KeyboardInterrupt], [SystemExit]) are not part of
    the model. *)
Inductive exn_class : Set :=
  | Exception
  | TypeError
  | ValueError
  | LookupError
  | KeyError
  | IndexError
  | OSError
  | JSONDecodeError           (* json.JSONDecodeError *)
  | RequestException          (* requests.exceptions.RequestException *)
  | ConnectionError           (* requests.exceptions.ConnectionError *)
  | Timeout                   (* requests.exceptions.Timeout *)
  | RequestsJSONDecodeError   (* requests.exceptions.JSONDecodeError *)
  | TelegramError             (* telegram.error.TelegramError *)
  | Unauthorized              (* telegram.error.Unauthorized *)
  | InvalidToken              (* telegram.error.InvalidToken *)
  | NetworkError              (* telegram.error.NetworkError *)
  | BadRequest                (* telegram.error.BadRequest *)
  | TimedOut.                 (* telegram.error.TimedOut *)

#[global] Instance exn_class_eq_dec : EqDecision exn_class.
Proof. solve_decision. Defined.

(** The classes a class derives from, itself included (its method
    resolution order without [BaseException] and [object]). *)
Definition mro (c : exn_class) : list exn_class :=
  match c with
  | Exception => [Exception]
  | TypeError => [TypeError; Exception]
  | ValueError => [ValueError; Exception]
  | LookupError => [LookupError; Exception]
  | KeyError => [KeyError; LookupError; Exception]
  | IndexError => [IndexError; LookupError; Exception]
  | OSError => [OSError; Exception]
  | JSONDecodeError => [JSONDecodeError; ValueError; Exception]
  | RequestException => [RequestException; OSError; Exception]
  | ConnectionError => [ConnectionError; RequestException; OSError; Exception]
  | Timeout => [Timeout; RequestException; OSError; Exception]
  | RequestsJSONDecodeError =>
      [RequestsJSONDecodeError; RequestException; OSError;
       JSONDecodeError; ValueError; Exception]
  | TelegramError => [TelegramError; Exception]
  | Unauthorized => [Unauthorized; TelegramError; Exception]
  | InvalidToken => [InvalidToken; TelegramError; Exception]
  | NetworkError => [NetworkError; TelegramError; Exception]
  | BadRequest => [BadRequest; NetworkError; TelegramError; Exception]
  | TimedOut => [TimedOut; NetworkError; TelegramError; Exception]
  end.

(** An exception object: its class and [str(e)]. *)
Record exn : Set := mk_exn { exn_type : exn_class; exn_str : string }.

(** [isinstance(e, c)], the test of an [except c] clause. *)
Definition isa (e : exn) (c : exn_class) : bool :=
  bool_decide (c ∈ mro (exn_type e)).

(** ** Results, events and the monad *)

Inductive result (A : Type) : Type :=
  | Return (a : A)
  | Raise (e : exn).
Arguments Return {A} a.
Arguments Raise {A} e.

Inductive level : Set := DEBUG | INFO | ERROR | CRITICAL.

#[global] Instance level_eq_dec : EqDecision level.
Proof. solve_decision. Defined.

Inductive event : Type :=
  | Log (lvl : level) (msg : string)
  | HttpGet (url : string) (authorization : string) (from_date : json)
  | JsonDecode
  | SendMessage (chat_id : option string) (text : string)
  | Sleep (seconds : Z).

Definition trace : Type := list event.

Definition M (A : Type) : Type := trace → result A * trace.

Definition ret {A} (a : A) : M A := λ w, (Return a, w).

Definition bind {A B} (m : M A) (k : A → M B) : M B := λ w,
  match m w with
  | (Return a, w') => k a w'
  | (Raise e, w') => (Raise e, w')
  end.

Declare Scope py_scope.
Delimit Scope py_scope with py.
Bind Scope py_scope with M.
Notation "x <- m ;; k" := (bind m (λ x, k))
  (at level 100, m at next level, k at level 200, right associativity) : py_scope.
Notation "m ;; k" := (bind m (λ _, k))
  (at level 100, k at level 200, right associativity) : py_scope.
Open Scope py_scope.

Definition raise {A} (e : exn) : M A := λ w, (Raise e, w).

Definition lift {A} (r : result A) : M A := λ w, (r, w).

Definition emit (ev : event) : M unit := λ w, (Return (), w ++ [ev]).

(** [try: m  except ...: ...]: the handler table [h] returns the body
    of the first matching [except] clause; an exception raised in that
    body propagates. *)
Definition try_except {A} (m : M A) (h : exn → option (M A)) : M A := λ w,
  match m w with
  | (Return a, w') => (Return a, w')
  | (Raise e, w') =>
      match h e with
      | Some k => k w'
      | None => (Raise e, w')
      end
  end.

(** ** The logging module *)

Definition logging (lvl : level) (msg : string) : M unit := emit (Log lvl msg).

(** [raise logging.error(msg)]: [logging.error] writes the record and
    returns [None]; raising [None] is a [TypeError]. *)
Definition raise_logging_error {A} (msg : string) : M A :=
  logging ERROR msg;;
  raise (mk_exn TypeError "exceptions must derive from BaseException").

(** ** Strings *)

Definition dquote : string := String "034"%char EmptyString.
Definition squote : string := String "039"%char EmptyString.
Definition newline : ascii := "010"%char.

(** [str(n)] for an [int]. *)
Definition str_int (n : Z) : string := NilZero.string_of_int (Z.to_int n).

(** [s.replace('\n', '')] *)
Fixpoint remove_newlines (s : string) : string :=
  match s with
  | EmptyString => EmptyString
  | String c s' =>
      if Ascii.eqb c newline then remove_newlines s'
      else String c (remove_newlines s')
  end.

(** [k in s] for two strings. *)
Definition is_substring (k s : string) : bool :=
  match String.index 0 k s with
  | Some _ => true
  | None => false
  end.

(** ** Operations on values *)

(** [type(v).__name__] *)
Definition type_name (v : json) : string :=
  match v with
  | JNull => "NoneType"
  | JBool _ => "bool"
  | JInt _ => "int"
  | JFloat _ => "float"
  | JStr _ => "str"
  | JList _ => "list"
  | JDict _ => "dict"
  end.

(** [str(type(v))] *)
Definition type_str (v : json) : string :=
  "<class " +:+ squote +:+ type_name v +:+ squote +:+ ">".

(** [bool(v)] *)
Definition truthy (v : json) : bool :=
  match v with
  | JNull => false
  | JBool b => b
  | JInt z => negb (z =? 0)%Z
  | JFloat f => negb (PrimFloat.eqb f 0%float)
  | JStr s => negb (String.eqb s "")
  | JList l => match l with [] => false | _ => true end
  | JDict d => negb (bool_decide (d = ∅))
  end.

Definition is_list (v : json) : bool :=
  match v with JList _ => true | _ => false end.

Definition is_None (v : json) : bool :=
  match v with JNull => true | _ => false end.

(** [k in v] for a string constant [k]. *)
Definition contains (k : string) (v : json) : result bool :=
  match v with
  | JDict d => Return (bool_decide (is_Some (d !! k)))
  | JList l =>
      Return (existsb (λ x, match x with JStr s => String.eqb k s | _ => false end) l)
  | JStr s => Return (is_substring k s)
  | _ =>
      Raise (mk_exn TypeError
        ("argument of type " +:+ squote +:+ type_name v +:+ squote
         +:+ " is not iterable"))
  end.

(** [l[0]] for a list. *)
Definition getitem0 (l : list json) : result json :=
  match l with
  | x :: _ => Return x
  | [] => Raise (mk_exn IndexError "list index out of range")
  end.

(** ** Module constants *)

(** The three values read with [os.getenv] when the module is loaded. *)
Record config : Type := mk_config {
  PRACTICUM_TOKEN : option string;
  TELEGRAM_TOKEN : option string;
  TELEGRAM_CHAT_ID : option string
}.

Definition RETRY_TIME : Z := 600.

Definition ENDPOINT : string :=
  "https://practicum.yandex.ru/api/user_api/homework_statuses/".

(** [f'{v}'] for the result of [os.getenv]. *)
Definition str_getenv (v : option string) : string :=
  match v with
  | Some s => s
  | None => "None"
  end.

(** The value of the [Authorization] header in [HEADERS]. *)
Definition HEADERS (cfg : config) : string :=
  "OAuth " +:+ str_getenv (PRACTICUM_TOKEN cfg).

Definition HOMEWORK_STATUSES : gmap string string :=
  list_to_map
    [ ("approved", "Работа проверена: ревьюеру всё понравилось. Ура!");
      ("reviewing", "Работа взята на проверку ревьюером.");
      ("rejected", "Работа проверена: у ревьюера есть замечания.") ].

(** The record written when the module is loaded. *)
Definition module_loaded : trace := [Log DEBUG "Бот запущен!"].

(** ** Collaborators *)

(** A [requests.Response]: its status code and what [.json()] does. *)
Record response : Type := mk_response {
  status_code : Z;
  json_body : result json
}.

(** A [telegram.Bot]. *)
Record Bot : Type := mk_bot { token : string }.

(** What the outside world does during one cycle: the outcome of
    [requests.get(url, headers, params)] and of
    [bot.send_message(chat_id, text)] (the id of the message sent). *)
Record env : Type := mk_env {
  requests_get : string → string → json → result response;
  bot_send_message : Bot → option string → string → result Z
}.

(** What the outside world does at startup: [Bot(token=...)] and
    [int(time.time())]. *)
Record startup : Type := mk_startup {
  new_Bot : option string → result Bot;
  time_time : Z
}.

(** ** The program *)

Section Interpreter.

(** [repr(v)] is the interpreter's; the program only puts it into log
    records and exception texts. *)
Variable py_repr : json → string.

(** [str(v)] *)
Definition py_str (v : json) : string :=
  match v with
  | JStr s => s
  | _ => py_repr v
  end.

(** [v[k]] for a string constant [k]. *)
Definition getitem (v : json) (k : string) : result json :=
  match v with
  | JDict d =>
      match d !! k with
      | Some x => Return x
      | None => Raise (mk_exn KeyError (py_repr (JStr k)))
      end
  | JList _ =>
      Raise (mk_exn TypeError "list indices must be integers or slices, not str")
  | JStr _ => Raise (mk_exn TypeError "string indices must be integers")
  | _ =>
      Raise (mk_exn TypeError
        (squote +:+ type_name v +:+ squote +:+ " object is not subscriptable"))
  end.

Definition unhashable {A} (v : json) : result A :=
  Raise (mk_exn TypeError ("unhashable type: " +:+ squote +:+ type_name v +:+ squote)).

(** [v in HOMEWORK_STATUSES] *)
Definition in_HOMEWORK_STATUSES (v : json) : result bool :=
  match v with
  | JStr s => Return (bool_decide (is_Some (HOMEWORK_STATUSES !! s)))
  | JList _ | JDict _ => unhashable v
  | _ => Return false
  end.

(** [HOMEWORK_STATUSES[v]] *)
Definition HOMEWORK_STATUSES_getitem (v : json) : result string :=
  match v with
  | JStr s =>
      match HOMEWORK_STATUSES !! s with
      | Some verdict => Return verdict
      | None => Raise (mk_exn KeyError (py_repr v))
      end
  | JList _ | JDict _ => unhashable v
  | _ => Raise (mk_exn KeyError (py_repr v))
  end.

Definition send_message (e : env) (cfg : config) (bot : Bot) (message : string)
    : M (option Z) :=
  let message_for_log := remove_newlines message in
  logging DEBUG ("Отправка сообщения в телеграм: " +:+ message_for_log);;
  try_except
    (emit (SendMessage (TELEGRAM_CHAT_ID cfg) message);;
     sent <- lift (bot_send_message e bot (TELEGRAM_CHAT_ID cfg) message);;
     ret (Some sent))
    (λ telegram_error,
      if isa telegram_error Unauthorized then Some (
        logging ERROR "Telegram API не авторизован. Проверьте токен и id чата";;
        ret None)
      else if isa telegram_error BadRequest then Some (
        logging ERROR ("Ошибка работы с Telegram: " +:+ exn_str telegram_error);;
        ret None)
      else if isa telegram_error TelegramError then Some (
        logging ERROR ("Ошибка работы с Telegram: " +:+ exn_str telegram_error);;
        ret None)
      else None).

Definition get_api_answer (e : env) (cfg : config) (current_timestamp : json)
    : M json :=
  logging INFO "Получение ответа от сервера";;
  timestamp <-
    (if truthy current_timestamp then ret current_timestamp
     else raise (mk_exn TypeError "time.time() takes no arguments (1 given)"));;
  let params := timestamp in
  response <-
    try_except
      (emit (HttpGet ENDPOINT (HEADERS cfg) params);;
       lift (requests_get e ENDPOINT (HEADERS cfg) params))
      (λ answer_error,
        if isa answer_error RequestException then Some (
          raise_logging_error
            ("При попытке запроса возникла ошибка: " +:+ exn_str answer_error))
        else if isa answer_error ValueError then Some (
          raise_logging_error ("Ошибка в значении: " +:+ exn_str answer_error))
        else if isa answer_error TypeError then Some (
          raise_logging_error ("Неверный тип данных: " +:+ exn_str answer_error))
        else None);;
  (if negb (status_code response =? 200)%Z then
     raise_logging_error
       ("ошибка ответа от сервера. Статус - " +:+ str_int (status_code response))
   else ret ());;
  response <-
    try_except
      (emit JsonDecode;; lift (json_body response))
      (λ decode_error,
        if isa decode_error JSONDecodeError then Some (
          raise_logging_error "Ответ от сервера должен быть в формате JSON")
        else None);;
  logging INFO "Получен ответ от сервера";;
  ret response.

Definition check_response (response : json) : M json :=
  logging DEBUG "Проверка ответа сервера на корректность";;
  has_error <- lift (contains "error" response);;
  (if has_error then
     error <- lift (getitem response "error");;
     nested <- lift (contains "error" error);;
     if nested then
       error <- lift (getitem response "error");;
       message <- lift (getitem error "error");;
       raise_logging_error (py_str message)
     else ret ()
   else ret ());;
  has_code <- lift (contains "code" response);;
  (if has_code then
     message <- lift (getitem response "message");;
     logging INFO (py_str message)
   else ret ());;
  homeworks <- lift (getitem response "homeworks");;
  (if is_None homeworks then logging INFO "Заданий нет" else ret ());;
  homeworks <- lift (getitem response "homeworks");;
  (if negb (is_list homeworks) then
     raise_logging_error
       ("Тип - " +:+ type_str response +:+ " не является списком")
   else ret ());;
  logging DEBUG "Ответ сервера проверен на корректность";;
  lift (getitem response "homeworks").

Definition parse_status (homework : json) : M string :=
  logging DEBUG "Извлекаю статус домашнего задания";;
  homework_name <- lift (getitem homework "homework_name");;
  homework_status <- lift (getitem homework "status");;
  known <- lift (in_HOMEWORK_STATUSES homework_status);;
  (if negb known then
     logging ERROR "Недокументированный статус домашней работы"
   else ret ());;
  verdict <- lift (HOMEWORK_STATUSES_getitem homework_status);;
  ret ("Изменился статус проверки работы " +:+ dquote +:+ py_str homework_name
        +:+ dquote +:+ ". " +:+ verdict).

Definition check_tokens (cfg : config) : bool :=
  if bool_decide (PRACTICUM_TOKEN cfg = None)
     && bool_decide (TELEGRAM_CHAT_ID cfg = None)
     && bool_decide (TELEGRAM_TOKEN cfg = None)
  then false
  else true.

(** The body of the [try] block of [main]'s loop; it returns the new
    value of [current_timestamp]. *)
Definition cycle (e : env) (cfg : config) (bot : Bot) (current_timestamp : json)
    : M json :=
  response <- get_api_answer e cfg current_timestamp;;
  homeworks <- check_response response;;
  logging INFO "Список домашних работ получен";;
  match homeworks with
  | JList l =>
      if bool_decide (0 < length l) && truthy homeworks then
        homework <- lift (getitem0 l);;
        message <- parse_status homework;;
        send_message e cfg bot message;;
        ret ()
      else logging INFO "Задания не обнаружены"
  | _ => logging INFO "Задания не обнаружены"
  end;;
  current_timestamp <- lift (getitem response "current_date");;
  emit (Sleep RETRY_TIME);;
  ret current_timestamp.

(** The state of the process: inside the loop with the current value of
    [current_timestamp], returned from [main], or ended by an exception
    that left [main]. *)
Inductive process : Type :=
  | Running (current_timestamp : json)
  | Returned (value : Z)
  | Uncaught (e : exn).

(** One iteration of [while True]: the [try] block and its
    [except Exception] clause. *)
Definition iteration (e : env) (cfg : config) (bot : Bot) (current_timestamp : json)
    (w : trace) : process * trace :=
  match cycle e cfg bot current_timestamp w with
  | (Return current_timestamp', w') => (Running current_timestamp', w')
  | (Raise ex_error, w') =>
      if isa ex_error Exception then
        (Running current_timestamp,
         w' ++ [Log CRITICAL ("Сбой в работе программы: " +:+ exn_str ex_error)])
      else (Uncaught ex_error, w')
  end.

(** The loop, run for as many iterations as the list gives outside
    worlds. *)
Fixpoint loop (es : list env) (cfg : config) (bot : Bot) (p : process) (w : trace)
    : process * trace :=
  match es with
  | [] => (p, w)
  | e :: es' =>
      match p with
      | Running current_timestamp =>
          let '(p', w') := iteration e cfg bot current_timestamp w in
          loop es' cfg bot p' w'
      | _ => (p, w)
      end
  end.

Definition main (s : startup) (es : list env) (cfg : config) (w : trace)
    : process * trace :=
  if negb (check_tokens cfg) then
    (Returned 0,
     w ++ [Log CRITICAL
             ("Проверьте переменные окружения "
              +:+ "(PRACTICUM_TOKEN, TELEGRAM_TOKEN, TELEGRAM_CHAT_ID")])
  else
    match new_Bot s (TELEGRAM_TOKEN cfg) with
    | Raise ex => (Uncaught ex, w)
    | Return bot => loop es cfg bot (Running (JInt (time_time s))) w
    end.

(** ** Reading a trace *)

Definition logged (lvl : level) (w : trace) : list string :=
  omap (λ ev, match ev with
              | Log l msg => if bool_decide (l = lvl) then Some msg else None
              | _ => None
              end) w.

Definition sent_messages (w : trace) : list (option string * string) :=
  omap (λ ev, match ev with SendMessage c t => Some (c, t) | _ => None end) w.

Definition http_requests (w : trace) : list json :=
  omap (λ ev, match ev with HttpGet _ _ d => Some d | _ => None end) w.

Definition json_decodes (w : trace) : list unit :=
  omap (λ ev, match ev with JsonDecode => Some () | _ => None end) w.

End Interpreter.

(** ** Sample data *)

(** [repr] on the values of the examples below: [None], [bool], [int]
    and strings that need no escaping. *)
Definition repr_plain (v : json) : string :=
  match v with
  | JNull => "None"
  | JBool true => "True"
  | JBool false => "False"
  | JInt z => str_int z
  | JStr s => squote +:+ s +:+ squote
  | _ => "<" +:+ type_name v +:+ ">"
  end.

Definition sample_config : config :=
  mk_config (Some "practicum-token") (Some "123456:ABC") (Some "42").

Definition sample_bot : Bot := mk_bot "123456:ABC".

(** An outside world whose HTTP request and Telegram call always have
    the given outcomes. *)
Definition env_of (http : result response) (telegram : result Z) : env :=
  mk_env (λ _ _ _, http) (λ _ _ _, telegram).

Definition ok_response (body : json) : response :=
  mk_response 200 (Return body).

(** [Bot(token=...)] as [python-telegram-bot] does it for a well-formed
    token; [None] is not iterable. *)
Definition sample_startup : startup :=
  mk_startup
    (λ t, match t with
          | Some s => Return (mk_bot s)
          | None => Raise (mk_exn TypeError "'NoneType' object is not iterable")
          end)
    1700000000.

Definition connection_refused : exn := mk_exn ConnectionError "Connection refused".

Definition hw1_approved : json :=
  JDict (list_to_map [("homework_name", JStr "hw1"); ("status", JStr "approved")]).

Definition hw1_unknown : json :=
  JDict (list_to_map [("homework_name", JStr "hw1"); ("status", JStr "unknown")]).

Definition envelope_bad_token : json :=
  JDict (list_to_map [("error", JDict (list_to_map [("error", JStr "bad token")]))]).

Definition envelope_hw1 : json :=
  JDict (list_to_map [("homeworks", JList [hw1_approved]);
                      ("current_date", JInt 1700000100)]).

Definition envelope_empty : gmap string json :=
  list_to_map [("homeworks", JList []); ("current_date", JInt 1700000100)].

Definition envelope_no_homeworks : json :=
  JDict (list_to_map [("current_date", JInt 1700000100)]).

(** A configuration with one credential missing. *)
Definition config_no_practicum_token : config :=
  mk_config None (Some "123456:ABC") (Some "42").

(** ** Properties of computations *)

(** A record of the log: its level and message. *)
Definition log_event (r : level * string) : event := Log r.1 r.2.

(** A computation whose result does not depend on the trace and whose
    only effect is to write log records. *)
Definition pure_up_to_logging {A} (m : M A) : Prop :=
  ∃ (r : result A) (records : list (level * string)),
    ∀ w, m w = (r, w ++ map log_event records).

(** The HTTP request of this outside world fails below the HTTP layer. *)
Definition transport_error (e : env) : Prop :=
  ∀ url auth params,
    ∃ ex, requests_get e url auth params = Raise ex ∧ isa ex RequestException = true.

(** The exception that [raise None] raises. *)
Definition raise_None : exn :=
  mk_exn TypeError "exceptions must derive from BaseException".

(** The seconds slept, in order. *)
Definition sleeps (w : trace) : list Z :=
  omap (λ ev, match ev with Sleep n => Some n | _ => None end) w.

(** [post m Q]: the result of [m] and the events it appends do not
    depend on the trace it starts from, and they satisfy [Q]. *)
Definition post {A} (m : M A) (Q : result A → trace → Prop) : Prop :=
  ∃ r evs, (∀ w, m w = (r, w ++ evs)) ∧ Q r evs.

(** The events of a computation that only validates or formats: log
    records below the critical level. *)
Definition silent (evs : trace) : Prop :=
  http_requests evs = [] ∧ json_decodes evs = [] ∧ sent_messages evs = []
  ∧ sleeps evs = [] ∧ logged CRITICAL evs = [].

(** The characters of a string. *)
Fixpoint chars (s : string) : list ascii :=
  match s with
  | EmptyString => []
  | String c s' => c :: chars s'
  end.



(** An envelope with a [code] and no [message]. *)
Definition envelope_code_only : gmap string json :=
  list_to_map [("code", JStr "not_authenticated"); ("homeworks", JList [])].

(** An envelope with a [code], a [message] and one record. *)
Definition envelope_notice : gmap string json :=
  list_to_map [("code", JStr "notice"); ("message", JStr "maintenance");
               ("homeworks", JList [hw1_approved])].

(** An envelope whose [homeworks] is [null]. *)
Definition envelope_null : gmap string json :=
  list_to_map [("homeworks", JNull)].

(** A record without [homework_name]. *)
Definition hw_nameless : gmap string json :=
  list_to_map [("status", JStr "approved")].

(** A record without [status]. *)
Definition hw_statusless : gmap string json :=
  list_to_map [("homework_name", JStr "hw1")].


(** A startup at which [Bot(...)] refuses the token. *)
Definition startup_invalid_token : startup :=
  mk_startup (λ _, Raise (mk_exn InvalidToken "Invalid token")) 1700000000.

(** Unfold the monad down to pairs. *)
Ltac run :=
  cbv [bind ret lift emit logging raise raise_logging_error try_except];
  cbn [fst snd].

(** ** Theorems *)

Section Properties.

Variable py_repr : json → string.

Lemma isa_Exception ex : isa ex Exception = true.
Proof. destruct ex as [[] msg]; reflexivity. Qed.

Lemma bind_Return {A B} (m : M A) (k : A → M B) w a w' :
  m w = (Return a, w') → bind m k w = k a w'.
Proof. intros H. unfold bind. now rewrite H. Qed.

Lemma bind_Raise {A B} (m : M A) (k : A → M B) w ex w' :
  m w = (Raise ex, w') → bind m k w = (Raise ex, w').
Proof. intros H. unfold bind. now rewrite H. Qed.

(** C10: with a falsy [current_timestamp] the fetch raises the
    [TypeError] of [time.time(0)] after its first log record: no HTTP
    request is issued and no body is decoded. *)
Theorem get_api_answer_falsy_timestamp e cfg current_timestamp w :
  truthy current_timestamp = false →
  get_api_answer e cfg current_timestamp w =
    (Raise (mk_exn TypeError "time.time() takes no arguments (1 given)"),
     w ++ [Log INFO "Получение ответа от сервера"])
  ∧ http_requests (get_api_answer e cfg current_timestamp w).2 = http_requests w.
Proof.
  intros Hfalsy.
  assert (get_api_answer e cfg current_timestamp w =
    (Raise (mk_exn TypeError "time.time() takes no arguments (1 given)"),
     w ++ [Log INFO "Получение ответа от сервера"])) as Heq.
  { unfold get_api_answer. run. now rewrite Hfalsy. }
  split; [exact Heq|].
  rewrite Heq. unfold http_requests. cbn [snd].
  rewrite omap_app. cbn. apply app_nil_r.
Qed.

(** What the fetch does with a response whose status code is not 200:
    the code is written to the log and [raise None] fails. *)
Lemma get_api_answer_not_200 e cfg current_timestamp resp w :
  truthy current_timestamp = true →
  requests_get e ENDPOINT (HEADERS cfg) current_timestamp = Return resp →
  status_code resp ≠ 200%Z →
  get_api_answer e cfg current_timestamp w =
    (Raise raise_None,
     w ++ [Log INFO "Получение ответа от сервера";
           HttpGet ENDPOINT (HEADERS cfg) current_timestamp;
           Log ERROR ("ошибка ответа от сервера. Статус - "
                      +:+ str_int (status_code resp))]).
Proof.
  intros Htruthy Hget Hcode.
  unfold get_api_answer. run. rewrite Htruthy, Hget.
  apply Z.eqb_neq in Hcode. rewrite Hcode. cbn [negb].
  now rewrite <- !app_assoc.
Qed.

(** C4: for the response [404] the fetch fails without decoding the
    body, but the exception is the [TypeError] of [raise None]: the
    status code is in the log record only, not in the exception. *)
Theorem get_api_answer_404 :
  get_api_answer (env_of (Return (mk_response 404 (Return JNull))) (Return 1%Z))
      sample_config (JInt 1700000000) [] =
    (Raise (mk_exn TypeError "exceptions must derive from BaseException"),
     [Log INFO "Получение ответа от сервера";
      HttpGet ENDPOINT "OAuth practicum-token" (JInt 1700000000);
      Log ERROR "ошибка ответа от сервера. Статус - 404"])
  ∧ json_decodes
      (get_api_answer (env_of (Return (mk_response 404 (Return JNull))) (Return 1%Z))
         sample_config (JInt 1700000000) []).2 = [].
Proof. split; reflexivity. Qed.

(** C8: when [bot.send_message] raises [Unauthorized], [BadRequest] or
    another [TelegramError], [send_message] writes one record at error
    level and returns [None]; the caller goes on with what follows the
    call. *)
Theorem send_message_swallows_telegram_errors e cfg bot message ex w :
  bot_send_message e bot (TELEGRAM_CHAT_ID cfg) message = Raise ex →
  isa ex Unauthorized = true ∨ isa ex BadRequest = true ∨ isa ex TelegramError = true →
  ∃ msg,
    send_message e cfg bot message w =
      (Return None,
       w ++ [Log DEBUG ("Отправка сообщения в телеграм: " +:+ remove_newlines message);
             SendMessage (TELEGRAM_CHAT_ID cfg) message;
             Log ERROR msg])
    ∧ ∀ B (k : option Z → M B),
        bind (send_message e cfg bot message) k w =
          k None
            (w ++ [Log DEBUG ("Отправка сообщения в телеграм: "
                              +:+ remove_newlines message);
                   SendMessage (TELEGRAM_CHAT_ID cfg) message;
                   Log ERROR msg]).
Proof.
  intros Hsend Hclass.
  assert (∃ msg,
    send_message e cfg bot message w =
      (Return None,
       w ++ [Log DEBUG ("Отправка сообщения в телеграм: " +:+ remove_newlines message);
             SendMessage (TELEGRAM_CHAT_ID cfg) message;
             Log ERROR msg])) as [msg Hmsg].
  { unfold send_message. run. rewrite Hsend.
    destruct (isa ex Unauthorized) eqn:Hu;
      [|destruct (isa ex BadRequest) eqn:Hb;
        [|destruct (isa ex TelegramError) eqn:Ht]];
      try (eexists; rewrite <- !app_assoc; reflexivity).
    destruct Hclass as [?|[?|?]]; discriminate. }
  exists msg. split; [exact Hmsg|].
  intros B k. now apply bind_Return.
Qed.

(** What the formatter returns for a record whose status is a key of
    [HOMEWORK_STATUSES], whatever the type of the name. *)
Lemma parse_status_known (d : gmap string json) name status verdict w :
  d !! "homework_name" = Some name →
  d !! "status" = Some (JStr status) →
  HOMEWORK_STATUSES !! status = Some verdict →
  parse_status py_repr (JDict d) w =
    (Return ("Изменился статус проверки работы " +:+ dquote +:+ py_str py_repr name
             +:+ dquote +:+ ". " +:+ verdict),
     w ++ [Log DEBUG "Извлекаю статус домашнего задания"]).
Proof.
  intros Hname Hstatus Hverdict.
  unfold parse_status. run. cbn [getitem]. rewrite Hname, Hstatus.
  cbn [in_HOMEWORK_STATUSES HOMEWORK_STATUSES_getitem].
  rewrite Hverdict. rewrite bool_decide_eq_true_2 by eauto.
  reflexivity.
Qed.

(** C6: for a record with the name [name] whose status is a key of
    [HOMEWORK_STATUSES], the formatter returns the template with the
    name and the verdict of that status. *)
Theorem parse_status_template (d : gmap string json) name status verdict w :
  d !! "homework_name" = Some (JStr name) →
  d !! "status" = Some (JStr status) →
  HOMEWORK_STATUSES !! status = Some verdict →
  parse_status py_repr (JDict d) w =
    (Return ("Изменился статус проверки работы " +:+ dquote +:+ name
             +:+ dquote +:+ ". " +:+ verdict),
     w ++ [Log DEBUG "Извлекаю статус домашнего задания"]).
Proof. intros. now erewrite parse_status_known by eassumption. Qed.

(** C3, as the code has it: for a record whose status is not a key of
    [HOMEWORK_STATUSES] the formatter raises and returns no string; when
    the status is hashable it first writes a record at error level and
    the exception is the [KeyError] of the lookup. *)
Theorem parse_status_unknown_raises (d : gmap string json) name status w :
  d !! "homework_name" = Some name →
  d !! "status" = Some status →
  in_HOMEWORK_STATUSES status ≠ Return true →
  (∃ ex w', parse_status py_repr (JDict d) w = (Raise ex, w'))
  ∧ (in_HOMEWORK_STATUSES status = Return false →
     parse_status py_repr (JDict d) w =
       (Raise (mk_exn KeyError (py_repr status)),
        w ++ [Log DEBUG "Извлекаю статус домашнего задания";
              Log ERROR "Недокументированный статус домашней работы"])).
Proof.
  intros Hname Hstatus Hunknown.
  assert (in_HOMEWORK_STATUSES status = Return false →
     parse_status py_repr (JDict d) w =
       (Raise (mk_exn KeyError (py_repr status)),
        w ++ [Log DEBUG "Извлекаю статус домашнего задания";
              Log ERROR "Недокументированный статус домашней работы"])) as Hkey.
  { intros Hin. unfold parse_status. run. cbn [getitem].
    rewrite Hname, Hstatus, Hin. cbn [negb].
    destruct status;
      cbn [in_HOMEWORK_STATUSES HOMEWORK_STATUSES_getitem unhashable] in Hin |- *;
      try discriminate; try (now rewrite <- !app_assoc).
    destruct (HOMEWORK_STATUSES !! s) eqn:Hs.
    - rewrite bool_decide_eq_true_2 in Hin by eauto. discriminate.
    - now rewrite <- !app_assoc. }
  split; [|exact Hkey].
  destruct (in_HOMEWORK_STATUSES status) as [[]|ex] eqn:Hin.
  - congruence.
  - eauto.
  - unfold parse_status. run. cbn [getitem].
    rewrite Hname, Hstatus, Hin. eauto.
Qed.

(** [check_tokens] fails only when all three values are missing. *)
Lemma check_tokens_false_iff cfg :
  check_tokens cfg = false ↔
  PRACTICUM_TOKEN cfg = None ∧ TELEGRAM_CHAT_ID cfg = None ∧ TELEGRAM_TOKEN cfg = None.
Proof.
  unfold check_tokens.
  destruct (PRACTICUM_TOKEN cfg), (TELEGRAM_CHAT_ID cfg), (TELEGRAM_TOKEN cfg);
    cbn; intuition congruence.
Qed.

(** C2: with [PRACTICUM_TOKEN] missing and the two Telegram values
    present, [check_tokens] returns [True] and [main] enters its loop. *)
Theorem check_tokens_one_missing :
  check_tokens config_no_practicum_token = true
  ∧ main py_repr sample_startup [] config_no_practicum_token module_loaded =
      (Running (JInt 1700000000), module_loaded).
Proof. split; reflexivity. Qed.

(** *** Computations that only log *)

Lemma pure_ret {A} (a : A) : pure_up_to_logging (ret a).
Proof. exists (Return a), []. intros w. cbn. now rewrite app_nil_r. Qed.

Lemma pure_lift {A} (r : result A) : pure_up_to_logging (lift r).
Proof. exists r, []. intros w. cbn. now rewrite app_nil_r. Qed.

Lemma pure_logging lvl msg : pure_up_to_logging (logging lvl msg).
Proof. now exists (Return ()), [(lvl, msg)]. Qed.

Lemma pure_raise_logging_error {A} msg :
  pure_up_to_logging (@raise_logging_error A msg).
Proof. now exists (Raise raise_None), [(ERROR, msg)]. Qed.

Lemma pure_bind {A B} (m : M A) (k : A → M B) :
  pure_up_to_logging m → (∀ a, pure_up_to_logging (k a)) →
  pure_up_to_logging (bind m k).
Proof.
  intros (r & records & Hm) Hk. destruct r as [a|ex].
  - destruct (Hk a) as (r' & records' & Hka).
    exists r', (records ++ records'). intros w.
    unfold bind. rewrite Hm, Hka, map_app. now rewrite app_assoc.
  - exists (Raise ex), records. intros w. unfold bind. now rewrite Hm.
Qed.

Lemma pure_if {A} (b : bool) (m1 m2 : M A) :
  pure_up_to_logging m1 → pure_up_to_logging m2 →
  pure_up_to_logging (if b then m1 else m2).
Proof. now destruct b. Qed.

Lemma check_response_pure response :
  pure_up_to_logging (check_response py_repr response).
Proof.
  unfold check_response.
  repeat first
    [ apply pure_ret | apply pure_lift | apply pure_logging
    | apply pure_raise_logging_error
    | apply pure_if
    | apply pure_bind; [|intros ?] ].
Qed.

Lemma sent_messages_log_events records w :
  sent_messages (w ++ map log_event records) = sent_messages w.
Proof.
  unfold sent_messages. rewrite omap_app.
  induction records as [|r records IH]; cbn in *; [apply app_nil_r|exact IH].
Qed.

(** C9: the result of the validator and the records it writes are
    functions of the envelope alone, its only effect is to append those
    records to the log, and a second call on the same envelope returns
    (or raises) what the first did.  The envelope is a value that the
    validator only reads. *)
Theorem check_response_idempotent response :
  pure_up_to_logging (check_response py_repr response)
  ∧ ∀ w, (check_response py_repr response (check_response py_repr response w).2).1
         = (check_response py_repr response w).1.
Proof.
  split; [apply check_response_pure|].
  destruct (check_response_pure response) as (r & records & H).
  intros w. now rewrite !H.
Qed.

(** *** The fetch *)

Lemma get_api_answer_ok e cfg current_timestamp resp body w :
  truthy current_timestamp = true →
  requests_get e ENDPOINT (HEADERS cfg) current_timestamp = Return resp →
  status_code resp = 200%Z →
  json_body resp = Return body →
  get_api_answer e cfg current_timestamp w =
    (Return body,
     w ++ [Log INFO "Получение ответа от сервера";
           HttpGet ENDPOINT (HEADERS cfg) current_timestamp;
           JsonDecode;
           Log INFO "Получен ответ от сервера"]).
Proof.
  intros Htruthy Hget Hcode Hbody.
  unfold get_api_answer. run. rewrite Htruthy, Hget, Hcode, Hbody. cbn.
  now rewrite <- !app_assoc.
Qed.

(** A transport error: whatever the cursor, the fetch raises after
    writing log records and, at most, issuing the request. *)
Lemma get_api_answer_transport_error e cfg current_timestamp w :
  transport_error e →
  ∃ ex w',
    get_api_answer e cfg current_timestamp w = (Raise ex, w')
    ∧ logged CRITICAL w' = logged CRITICAL w
    ∧ sent_messages w' = sent_messages w.
Proof.
  intros Htransport.
  destruct (Htransport ENDPOINT (HEADERS cfg) current_timestamp) as (ex & Hget & Hisa).
  unfold get_api_answer. run.
  destruct (truthy current_timestamp).
  - rewrite Hget, Hisa. do 2 eexists. split; [reflexivity|].
    unfold logged, sent_messages. rewrite !omap_app. cbn.
    now rewrite !app_nil_r.
  - do 2 eexists. split; [reflexivity|].
    unfold logged, sent_messages. rewrite !omap_app. cbn.
    now rewrite !app_nil_r.
Qed.

(** *** The loop *)

Lemma iteration_Raise e cfg bot current_timestamp w ex w' :
  cycle py_repr e cfg bot current_timestamp w = (Raise ex, w') →
  iteration py_repr e cfg bot current_timestamp w =
    (Running current_timestamp,
     w' ++ [Log CRITICAL ("Сбой в работе программы: " +:+ exn_str ex)]).
Proof. intros H. unfold iteration. now rewrite H, isa_Exception. Qed.

Lemma iteration_Running e cfg bot current_timestamp w :
  ∃ current_timestamp' w',
    iteration py_repr e cfg bot current_timestamp w = (Running current_timestamp', w').
Proof.
  unfold iteration.
  destruct (cycle py_repr e cfg bot current_timestamp w) as [[c|ex] w'].
  - eauto.
  - rewrite isa_Exception. eauto.
Qed.

Lemma loop_Running es cfg bot current_timestamp w :
  ∃ current_timestamp' w',
    loop py_repr es cfg bot (Running current_timestamp) w =
      (Running current_timestamp', w').
Proof.
  revert current_timestamp w.
  induction es as [|e es IH]; intros current_timestamp w; cbn [loop].
  - eauto.
  - destruct (iteration_Running e cfg bot current_timestamp w) as (c & w' & ->).
    apply IH.
Qed.

Lemma iteration_transport_error e cfg bot current_timestamp w :
  transport_error e →
  ∃ msg w',
    iteration py_repr e cfg bot current_timestamp w = (Running current_timestamp, w')
    ∧ logged CRITICAL w' = logged CRITICAL w ++ [msg]
    ∧ sent_messages w' = sent_messages w.
Proof.
  intros Htransport.
  destruct (get_api_answer_transport_error e cfg current_timestamp w Htransport)
    as (ex & w' & Hfetch & Hcritical & Hsent).
  erewrite iteration_Raise by (unfold cycle; apply bind_Raise, Hfetch).
  do 2 eexists. split; [reflexivity|].
  unfold logged, sent_messages in *. rewrite !omap_app, Hcritical, Hsent. cbn.
  split; [reflexivity|apply app_nil_r].
Qed.

(** C1: an exception raised by the [try] block of an iteration is
    caught by [except Exception], written to the log at critical level,
    and the loop goes on with [current_timestamp] unchanged; the loop
    is still running after any number of iterations; after three
    iterations whose requests fail with a transport error it is running
    with the same [current_timestamp], three more critical records and
    no message sent. *)
Theorem poll_loop_contains_exceptions cfg bot current_timestamp w :
  (∀ e ex w',
     cycle py_repr e cfg bot current_timestamp w = (Raise ex, w') →
     iteration py_repr e cfg bot current_timestamp w =
       (Running current_timestamp,
        w' ++ [Log CRITICAL ("Сбой в работе программы: " +:+ exn_str ex)]))
  ∧ (∀ es, ∃ current_timestamp' w',
       loop py_repr es cfg bot (Running current_timestamp) w =
         (Running current_timestamp', w'))
  ∧ (∀ e1 e2 e3,
       transport_error e1 → transport_error e2 → transport_error e3 →
       ∃ m1 m2 m3 w',
         loop py_repr [e1; e2; e3] cfg bot (Running current_timestamp) w =
           (Running current_timestamp, w')
         ∧ logged CRITICAL w' = logged CRITICAL w ++ [m1; m2; m3]
         ∧ sent_messages w' = sent_messages w).
Proof.
  split; [|split].
  - intros e ex w'. apply iteration_Raise.
  - intros es. apply loop_Running.
  - intros e1 e2 e3 H1 H2 H3. cbn [loop].
    destruct (iteration_transport_error e1 cfg bot current_timestamp w H1)
      as (m1 & w1 & -> & Hc1 & Hs1).
    destruct (iteration_transport_error e2 cfg bot current_timestamp w1 H2)
      as (m2 & w2 & -> & Hc2 & Hs2).
    destruct (iteration_transport_error e3 cfg bot current_timestamp w2 H3)
      as (m3 & w3 & -> & Hc3 & Hs3).
    exists m1, m2, m3, w3. split; [reflexivity|]. split.
    + rewrite Hc3, Hc2, Hc1. now rewrite <- !app_assoc.
    + congruence.
Qed.

(** *** Envelopes *)

Lemma check_response_empty_homeworks (d : gmap string json) w :
  d !! "homeworks" = Some (JList []) →
  (∀ err, d !! "error" = Some err → contains "error" err = Return false) →
  (is_Some (d !! "code") → is_Some (d !! "message")) →
  ∃ records,
    check_response py_repr (JDict d) w = (Return (JList []), w ++ map log_event records).
Proof.
  intros Hhw Herror Hcode.
  destruct (check_response_pure (JDict d)) as (r & records & Hpure).
  exists records. rewrite Hpure. f_equal.
  specialize (Hpure []). apply (f_equal fst) in Hpure. cbn [fst] in Hpure.
  rewrite <- Hpure. clear Hpure.
  unfold check_response. run. cbn [contains getitem]. rewrite Hhw.
  destruct (d !! "error") as [err|] eqn:Herr.
  - rewrite bool_decide_eq_true_2 by eauto.
    rewrite (Herror err eq_refl).
    destruct (d !! "code") as [code|] eqn:Hc.
    + rewrite bool_decide_eq_true_2 by eauto.
      destruct Hcode as [message ->]; [eauto|]. reflexivity.
    + rewrite bool_decide_eq_false_2 by (intros [? ?]; discriminate). reflexivity.
  - rewrite bool_decide_eq_false_2 by (intros [? ?]; discriminate).
    destruct (d !! "code") as [code|] eqn:Hc.
    + rewrite bool_decide_eq_true_2 by eauto.
      destruct Hcode as [message ->]; [eauto|]. reflexivity.
    + rewrite bool_decide_eq_false_2 by (intros [? ?]; discriminate). reflexivity.
Qed.

Lemma check_response_without_homeworks (d : gmap string json) w :
  d !! "homeworks" = None →
  ∃ ex w', check_response py_repr (JDict d) w = (Raise ex, w').
Proof.
  intros Hhw.
  unfold check_response. run. cbn [contains getitem]. rewrite Hhw.
  repeat case_match; simplify_eq; eauto.
Qed.

(** When the test [k in v] gives [False]: [v] is a dict without the key
    [k], a list without the element [k] or a string without the
    substring [k]; on any other value the test raises. *)
Lemma contains_false k v :
  contains k v = Return false ↔
  match v with
  | JDict d => d !! k = None
  | JList l =>
      existsb (λ x, match x with JStr s => String.eqb k s | _ => false end) l = false
  | JStr s => is_substring k s = false
  | _ => False
  end.
Proof.
  destruct v as [| | | | s | l | d]; cbn [contains];
    try (split; [discriminate|contradiction]).
  - split; [now intros [= ->]|now intros ->].
  - split; [now intros [= ->]|now intros ->].
  - split.
    + intros [= H]. apply bool_decide_eq_false in H.
      now apply eq_None_not_Some.
    + intros H. f_equal. apply bool_decide_eq_false.
      now apply eq_None_not_Some.
Qed.

Lemma check_response_error_value (d : gmap string json) err w :
  d !! "error" = Some err →
  contains "error" err ≠ Return false →
  ∃ ex w', check_response py_repr (JDict d) w = (Raise ex, w').
Proof.
  intros Herr Hnot.
  unfold check_response. run. cbn [contains getitem]. rewrite Herr.
  rewrite bool_decide_eq_true_2 by eauto.
  destruct (contains "error" err) as [[]|ex]; [|congruence|eauto].
  destruct (getitem py_repr err "error"); eauto.
Qed.

(** C5, as the code has it: an envelope whose [homeworks] is the empty
    list passes the validator, which returns the empty list, when the
    test ['error' in response['error']] gives [False] for its [error]
    value if it has one (a dict, list or string in which ['error'] does
    not occur) and when it has a [message] if it has a [code]; an
    iteration that fetches it and finds its [current_date] moves
    [current_timestamp] there and sends no message.  An envelope
    without the key [homeworks] makes the validator raise, and so does
    one whose [error] value is anything else ([null], a number, or a
    dict, list or string in which ['error'] occurs). *)
Theorem empty_homeworks_advance_cursor (d : gmap string json) :
  d !! "homeworks" = Some (JList []) →
  (∀ err, d !! "error" = Some err → contains "error" err = Return false) →
  (is_Some (d !! "code") → is_Some (d !! "message")) →
  (∀ w, ∃ records,
     check_response py_repr (JDict d) w =
       (Return (JList []), w ++ map log_event records))
  ∧ (∀ e cfg bot current_timestamp current_date w,
       truthy current_timestamp = true →
       requests_get e ENDPOINT (HEADERS cfg) current_timestamp =
         Return (ok_response (JDict d)) →
       d !! "current_date" = Some current_date →
       ∃ w', iteration py_repr e cfg bot current_timestamp w = (Running current_date, w')
             ∧ sent_messages w' = sent_messages w)
  ∧ (∀ (d' : gmap string json) w,
       d' !! "homeworks" = None →
       ∃ ex w', check_response py_repr (JDict d') w = (Raise ex, w'))
  ∧ (∀ (d' : gmap string json) err w,
       d' !! "error" = Some err →
       contains "error" err ≠ Return false →
       ∃ ex w', check_response py_repr (JDict d') w = (Raise ex, w')).
Proof.
  intros Hhw Herror Hcode. split; [|split; [|split]].
  - intros w. now apply check_response_empty_homeworks.
  - intros e cfg bot current_timestamp current_date w Htruthy Hget Hdate.
    unfold iteration, cycle.
    erewrite bind_Return
      by (eapply get_api_answer_ok; [exact Htruthy|exact Hget|reflexivity..]).
    match goal with |- context [bind _ _ ?w0] =>
      destruct (check_response_empty_homeworks d w0 Hhw Herror Hcode)
        as (records & Hcheck)
    end.
    erewrite bind_Return by exact Hcheck.
    run. cbn [getitem length truthy]. rewrite Hdate.
    rewrite bool_decide_eq_false_2 by lia. cbn [andb].
    eexists. split; [reflexivity|].
    unfold sent_messages. rewrite !omap_app. cbn. rewrite !app_nil_r.
    pose proof (sent_messages_log_events records w) as Hsent.
    unfold sent_messages in Hsent. now rewrite omap_app in Hsent.
  - intros d' w Hd'. now apply check_response_without_homeworks.
  - intros d' err w Herr Hnot. now apply check_response_error_value with err.
Qed.

(** C7: for the envelope [{"error": {"error": "bad token"}}] the
    validator writes the embedded message to the log and fails with the
    [TypeError] of [raise None], which does not carry the message; the
    iteration that fetched the envelope keeps [current_timestamp] and
    sends no message. *)
Theorem check_response_bad_token :
  check_response py_repr envelope_bad_token [] =
    (Raise (mk_exn TypeError "exceptions must derive from BaseException"),
     [Log DEBUG "Проверка ответа сервера на корректность";
      Log ERROR "bad token"])
  ∧ ∃ w',
      iteration py_repr
        (env_of (Return (ok_response envelope_bad_token)) (Return 1%Z))
        sample_config sample_bot (JInt 1700000000) [] =
        (Running (JInt 1700000000), w')
      ∧ logged CRITICAL w' =
          ["Сбой в работе программы: exceptions must derive from BaseException"]
      ∧ sent_messages w' = [].
Proof.
  split; [reflexivity|].
  eexists. split; [reflexivity|]. split; reflexivity.
Qed.

End Properties.

Lemma get_api_answer_falsy_timestamp_witness :
  truthy (JInt 0) = false
  ∧ get_api_answer (env_of (Raise connection_refused) (Return 1%Z)) sample_config (JInt 0) [] =
      (Raise (mk_exn TypeError "time.time() takes no arguments (1 given)"),
       [Log INFO "Получение ответа от сервера"]).
Proof.
  split; [reflexivity|].
  apply (get_api_answer_falsy_timestamp
           (env_of (Raise connection_refused) (Return 1%Z)) sample_config (JInt 0) []).
  reflexivity.
Defined.

(** ** The theorems at sample inputs *)

(** Three requests refused in a row: the loop is still running, with
    the timestamp it started from. *)
Lemma poll_loop_contains_exceptions_witness :
  cycle repr_plain (env_of (Raise connection_refused) (Return 1%Z))
      sample_config sample_bot (JInt 1700000000) [] =
    (Raise raise_None,
     [Log INFO "Получение ответа от сервера";
      HttpGet ENDPOINT "OAuth practicum-token" (JInt 1700000000);
      Log ERROR "При попытке запроса возникла ошибка: Connection refused"])
  ∧ iteration repr_plain (env_of (Raise connection_refused) (Return 1%Z))
      sample_config sample_bot (JInt 1700000000) [] =
    (Running (JInt 1700000000),
     [Log INFO "Получение ответа от сервера";
      HttpGet ENDPOINT "OAuth practicum-token" (JInt 1700000000);
      Log ERROR "При попытке запроса возникла ошибка: Connection refused";
      Log CRITICAL "Сбой в работе программы: exceptions must derive from BaseException"])
  ∧ transport_error (env_of (Raise connection_refused) (Return 1%Z))
  ∧ ∃ m1 m2 m3 w',
      loop repr_plain
        [env_of (Raise connection_refused) (Return 1%Z);
         env_of (Raise connection_refused) (Return 1%Z);
         env_of (Raise connection_refused) (Return 1%Z)]
        sample_config sample_bot (Running (JInt 1700000000)) [] =
        (Running (JInt 1700000000), w')
      ∧ logged CRITICAL w' = logged CRITICAL [] ++ [m1; m2; m3]
      ∧ sent_messages w' = sent_messages [].
Proof.
  assert (transport_error (env_of (Raise connection_refused) (Return 1%Z))) as Ht.
  { intros url auth params. exists connection_refused. split; reflexivity. }
  split; [reflexivity|]. split; [|split; [exact Ht|]].
  - exact (proj1 (poll_loop_contains_exceptions repr_plain sample_config sample_bot
                    (JInt 1700000000) [])
             (env_of (Raise connection_refused) (Return 1%Z)) raise_None _ eq_refl).
  - exact (proj2 (proj2 (poll_loop_contains_exceptions repr_plain sample_config
                           sample_bot (JInt 1700000000) []))
             _ _ _ Ht Ht Ht).
Defined.

Lemma parse_status_unknown_raises_witness :
  in_HOMEWORK_STATUSES (JStr "unknown") = Return false
  ∧ parse_status repr_plain hw1_unknown [] =
      (Raise (mk_exn KeyError "'unknown'"),
       [Log DEBUG "Извлекаю статус домашнего задания";
        Log ERROR "Недокументированный статус домашней работы"]).
Proof.
  split; [reflexivity|].
  apply (parse_status_unknown_raises repr_plain
           (list_to_map [("homework_name", JStr "hw1"); ("status", JStr "unknown")])
           (JStr "hw1") (JStr "unknown") []);
    [reflexivity|reflexivity|discriminate|reflexivity].
Defined.

(** The formatter raises on the record
    [{"homework_name": "hw1", "status": "unknown"}]. *)
Lemma parse_status_unknown_counterexample :
  parse_status repr_plain hw1_unknown [] =
    (Raise (mk_exn KeyError "'unknown'"),
     [Log DEBUG "Извлекаю статус домашнего задания";
      Log ERROR "Недокументированный статус домашней работы"])
  ∧ ¬ ∃ text w', parse_status repr_plain hw1_unknown [] = (Return text, w').
Proof.
  split; [reflexivity|].
  intros (text & w' & H). vm_compute in H. discriminate H.
Qed.

Lemma empty_homeworks_advance_cursor_witness :
  (∃ records,
     check_response repr_plain (JDict envelope_empty) [] =
       (Return (JList []), [] ++ map log_event records))
  ∧ ∃ w',
      iteration repr_plain
        (env_of (Return (ok_response (JDict envelope_empty))) (Return 1%Z))
        sample_config sample_bot (JInt 1700000000) [] =
        (Running (JInt 1700000100), w')
      ∧ sent_messages w' = sent_messages [].
Proof.
  assert (envelope_empty !! "homeworks" = Some (JList [])) as H1 by reflexivity.
  assert (∀ err, envelope_empty !! "error" = Some err →
                 contains "error" err = Return false) as H2
    by (intros err H; vm_compute in H; discriminate H).
  assert (is_Some (envelope_empty !! "code") → is_Some (envelope_empty !! "message"))
    as H3 by (intros [code H]; vm_compute in H; discriminate H).
  split.
  - apply (proj1 (empty_homeworks_advance_cursor repr_plain envelope_empty H1 H2 H3)).
  - apply (proj1 (proj2 (empty_homeworks_advance_cursor repr_plain envelope_empty
                           H1 H2 H3)));
      reflexivity.
Defined.

(** The validator raises on the envelope [{"current_date": 1700000100}],
    which has no [homeworks]. *)
Lemma check_response_no_homeworks_counterexample :
  check_response repr_plain envelope_no_homeworks [] =
    (Raise (mk_exn KeyError "'homeworks'"),
     [Log DEBUG "Проверка ответа сервера на корректность"])
  ∧ (check_response repr_plain envelope_no_homeworks []).1 ≠ Return (JList []).
Proof. split; [reflexivity|]. vm_compute. discriminate. Qed.

(** The scenario of the record [hw1] with the status [approved]. *)
Lemma parse_status_template_witness :
  HOMEWORK_STATUSES !! "approved" =
    Some "Работа проверена: ревьюеру всё понравилось. Ура!"
  ∧ parse_status repr_plain hw1_approved [] =
      (Return ("Изменился статус проверки работы " +:+ dquote +:+ "hw1" +:+ dquote
               +:+ ". " +:+ "Работа проверена: ревьюеру всё понравилось. Ура!"),
       [] ++ [Log DEBUG "Извлекаю статус домашнего задания"]).
Proof.
  split; [reflexivity|].
  apply (parse_status_template repr_plain
           (list_to_map [("homework_name", JStr "hw1"); ("status", JStr "approved")])
           "hw1" "approved" "Работа проверена: ревьюеру всё понравилось. Ура!" []);
    reflexivity.
Defined.

Lemma send_message_swallows_telegram_errors_witness :
  isa (mk_exn Unauthorized "Unauthorized") Unauthorized = true
  ∧ ∃ msg,
      send_message (env_of (Raise connection_refused)
                      (Raise (mk_exn Unauthorized "Unauthorized")))
        sample_config sample_bot "hello" [] =
        (Return None,
         [] ++ [Log DEBUG ("Отправка сообщения в телеграм: " +:+ remove_newlines "hello");
                SendMessage (Some "42") "hello";
                Log ERROR msg]).
Proof.
  split; [reflexivity|].
  destruct (send_message_swallows_telegram_errors
              (env_of (Raise connection_refused) (Raise (mk_exn Unauthorized "Unauthorized")))
              sample_config sample_bot "hello" (mk_exn Unauthorized "Unauthorized") []
              eq_refl (or_introl eq_refl)) as [msg [Hmsg _]].
  exists msg. exact Hmsg.
Defined.

(** A refused notification does not stop the iteration: the timestamp
    moves on. *)
Example iteration_hw1_unauthorized :
  iteration repr_plain
      (env_of (Return (ok_response envelope_hw1))
         (Raise (mk_exn Unauthorized "Unauthorized")))
      sample_config sample_bot (JInt 1700000000) [] =
    (Running (JInt 1700000100),
     [Log INFO "Получение ответа от сервера";
      HttpGet ENDPOINT "OAuth practicum-token" (JInt 1700000000);
      JsonDecode;
      Log INFO "Получен ответ от сервера";
      Log DEBUG "Проверка ответа сервера на корректность";
      Log DEBUG "Ответ сервера проверен на корректность";
      Log INFO "Список домашних работ получен";
      Log DEBUG "Извлекаю статус домашнего задания";
      Log DEBUG ("Отправка сообщения в телеграм: Изменился статус проверки работы "
                 +:+ dquote +:+ "hw1" +:+ dquote
                 +:+ ". Работа проверена: ревьюеру всё понравилось. Ура!");
      SendMessage (Some "42")
        ("Изменился статус проверки работы " +:+ dquote +:+ "hw1" +:+ dquote
         +:+ ". Работа проверена: ревьюеру всё понравилось. Ура!");
      Log ERROR "Telegram API не авторизован. Проверьте токен и id чата";
      Sleep 600]).
Proof. reflexivity. Qed.

(** The scenario of a new verdict: the envelope with [hw1] approved,
    fetched at [1700000000], is announced and moves the timestamp to
    [1700000100]. *)
Example iteration_hw1_approved :
  iteration repr_plain (env_of (Return (ok_response envelope_hw1)) (Return 7%Z))
      sample_config sample_bot (JInt 1700000000) [] =
    (Running (JInt 1700000100),
     [Log INFO "Получение ответа от сервера";
      HttpGet ENDPOINT "OAuth practicum-token" (JInt 1700000000);
      JsonDecode;
      Log INFO "Получен ответ от сервера";
      Log DEBUG "Проверка ответа сервера на корректность";
      Log DEBUG "Ответ сервера проверен на корректность";
      Log INFO "Список домашних работ получен";
      Log DEBUG "Извлекаю статус домашнего задания";
      Log DEBUG ("Отправка сообщения в телеграм: Изменился статус проверки работы "
                 +:+ dquote +:+ "hw1" +:+ dquote
                 +:+ ". Работа проверена: ревьюеру всё понравилось. Ура!");
      SendMessage (Some "42")
        ("Изменился статус проверки работы " +:+ dquote +:+ "hw1" +:+ dquote
         +:+ ". Работа проверена: ревьюеру всё понравилось. Ура!");
      Sleep 600]).
Proof. reflexivity. Qed.

(** With no credential at all [main] returns 0 after one critical
    record. *)
Example main_without_credentials :
  main repr_plain sample_startup [] (mk_config None None None) module_loaded =
    (Returned 0,
     [Log DEBUG "Бот запущен!";
      Log CRITICAL ("Проверьте переменные окружения "
                    +:+ "(PRACTICUM_TOKEN, TELEGRAM_TOKEN, TELEGRAM_CHAT_ID")]).
Proof. reflexivity. Qed.

(** [null] for [homeworks]: a record at info level, then the failure of
    the type check. *)
Example check_response_null_homeworks :
  check_response repr_plain (JDict (list_to_map [("homeworks", JNull)])) [] =
    (Raise raise_None,
     [Log DEBUG "Проверка ответа сервера на корректность";
      Log INFO "Заданий нет";
      Log ERROR ("Тип - <class " +:+ squote +:+ "dict" +:+ squote
                 +:+ "> не является списком")]).
Proof. reflexivity. Qed.

(** ** Further properties of the program *)

Section Behaviour.

Variable py_repr : json → string.

(** *** Reading an appended trace *)

Lemma http_requests_app w1 w2 :
  http_requests (w1 ++ w2) = http_requests w1 ++ http_requests w2.
Proof. apply omap_app. Qed.

Lemma json_decodes_app w1 w2 :
  json_decodes (w1 ++ w2) = json_decodes w1 ++ json_decodes w2.
Proof. apply omap_app. Qed.

Lemma sent_messages_app w1 w2 :
  sent_messages (w1 ++ w2) = sent_messages w1 ++ sent_messages w2.
Proof. apply omap_app. Qed.

Lemma sleeps_app w1 w2 : sleeps (w1 ++ w2) = sleeps w1 ++ sleeps w2.
Proof. apply omap_app. Qed.

Lemma logged_app lvl w1 w2 : logged lvl (w1 ++ w2) = logged lvl w1 ++ logged lvl w2.
Proof. apply omap_app. Qed.

Lemma silent_nil : silent [].
Proof. repeat split. Qed.

Lemma silent_app evs1 evs2 : silent evs1 → silent evs2 → silent (evs1 ++ evs2).
Proof.
  intros (H1 & H2 & H3 & H4 & H5) (K1 & K2 & K3 & K4 & K5).
  unfold silent.
  rewrite http_requests_app, json_decodes_app, sent_messages_app, sleeps_app, logged_app.
  now rewrite H1, H2, H3, H4, H5, K1, K2, K3, K4, K5.
Qed.

(** *** Rules for [post] *)

Lemma post_elim {A} (m : M A) Q w :
  post m Q → ∃ r evs, m w = (r, w ++ evs) ∧ Q r evs.
Proof. intros (r & evs & Hm & HQ). eauto. Qed.

Lemma post_conseq {A} (m : M A) (Q Q' : result A → trace → Prop) :
  post m Q → (∀ r evs, Q r evs → Q' r evs) → post m Q'.
Proof. intros (r & evs & Hm & HQ) HQQ'. exists r, evs. auto. Qed.

Lemma post_ret {A} (a : A) (Q : result A → trace → Prop) :
  Q (Return a) [] → post (ret a) Q.
Proof. intros HQ. exists (Return a), []. split; [|exact HQ]. intros w. cbn. now rewrite app_nil_r. Qed.

Lemma post_lift {A} (r : result A) (Q : result A → trace → Prop) :
  Q r [] → post (lift r) Q.
Proof. intros HQ. exists r, []. split; [|exact HQ]. intros w. cbn. now rewrite app_nil_r. Qed.

Lemma post_emit ev (Q : result unit → trace → Prop) :
  Q (Return ()) [ev] → post (emit ev) Q.
Proof. intros HQ. exists (Return ()), [ev]. split; [|exact HQ]. reflexivity. Qed.

Lemma post_bind {A B} (m : M A) (k : A → M B)
    (Q1 : result A → trace → Prop) (Q : result B → trace → Prop) :
  post m Q1 →
  (∀ a evs1, Q1 (Return a) evs1 → post (k a) (λ r evs2, Q r (evs1 ++ evs2))) →
  (∀ ex evs1, Q1 (Raise ex) evs1 → Q (Raise ex) evs1) →
  post (bind m k) Q.
Proof.
  intros (r & evs1 & Hm & HQ1) Hk Hraise. destruct r as [a|ex].
  - destruct (Hk a evs1 HQ1) as (r2 & evs2 & Hka & HQ).
    exists r2, (evs1 ++ evs2). split; [|exact HQ].
    intros w. unfold bind. rewrite Hm, Hka. now rewrite app_assoc.
  - exists (Raise ex), evs1. split; [|now apply Hraise].
    intros w. unfold bind. now rewrite Hm.
Qed.

Lemma post_of_pure {A} (m : M A) :
  pure_up_to_logging m →
  post m (λ _ evs, ∃ records, evs = map log_event records).
Proof. intros (r & records & Hm). exists r, (map log_event records). eauto. Qed.

(** *** The notifier *)

Lemma isa_Unauthorized_TelegramError ex :
  isa ex Unauthorized = true → isa ex TelegramError = true.
Proof. destruct ex as [[] msg]; vm_compute; congruence. Qed.

Lemma isa_BadRequest_TelegramError ex :
  isa ex BadRequest = true → isa ex TelegramError = true.
Proof. destruct ex as [[] msg]; vm_compute; congruence. Qed.

Lemma send_message_fst e cfg bot message w :
  (send_message e cfg bot message w).1 =
    match bot_send_message e bot (TELEGRAM_CHAT_ID cfg) message with
    | Return sent => Return (Some sent)
    | Raise ex => if isa ex TelegramError then Return None else Raise ex
    end.
Proof.
  unfold send_message. run.
  destruct (bot_send_message e bot (TELEGRAM_CHAT_ID cfg) message) as [sent|ex];
    [reflexivity|].
  destruct (isa ex Unauthorized) eqn:Hu.
  { now rewrite (isa_Unauthorized_TelegramError ex Hu). }
  destruct (isa ex BadRequest) eqn:Hb.
  { now rewrite (isa_BadRequest_TelegramError ex Hb). }
  now destruct (isa ex TelegramError).
Qed.

(** X1: [send_message] returns what [bot.send_message] returned,
    returns [None] when it raised a [TelegramError] of any subclass,
    and lets every other exception through unchanged. *)
Theorem send_message_result e cfg bot message w :
  (send_message e cfg bot message w).1 =
    match bot_send_message e bot (TELEGRAM_CHAT_ID cfg) message with
    | Return sent => Return (Some sent)
    | Raise ex => if isa ex TelegramError then Return None else Raise ex
    end.
Proof. exact (send_message_fst e cfg bot message w). Qed.


Lemma send_message_post e cfg bot message :
  post (send_message e cfg bot message) (λ _ evs,
    sent_messages evs = [(TELEGRAM_CHAT_ID cfg, message)]
    ∧ http_requests evs = [] ∧ json_decodes evs = []
    ∧ sleeps evs = [] ∧ logged CRITICAL evs = []).
Proof.
  unfold post.
  destruct (bot_send_message e bot (TELEGRAM_CHAT_ID cfg) message) as [sent|ex] eqn:Hsend.
  - eexists _, _. split.
    + intros w. unfold send_message. run. rewrite Hsend.
      rewrite <- !app_assoc. reflexivity.
    + repeat split.
  - destruct (isa ex Unauthorized) eqn:Hu;
      [|destruct (isa ex BadRequest) eqn:Hb;
        [|destruct (isa ex TelegramError) eqn:Ht]];
      (eexists _, _; split;
       [ intros w; unfold send_message; run; rewrite Hsend, ?Hu, ?Hb, ?Ht;
         rewrite <- !app_assoc; reflexivity
       | repeat split ]).
Qed.

(** X2: whatever Telegram answers, [send_message] makes exactly one
    call, to the chat [TELEGRAM_CHAT_ID] and with the message as it
    got it; it issues no HTTP request, does not sleep and writes no
    critical record, and none of this depends on the earlier trace. *)
Theorem send_message_calls_once e cfg bot message :
  post (send_message e cfg bot message) (λ _ evs,
    sent_messages evs = [(TELEGRAM_CHAT_ID cfg, message)]
    ∧ http_requests evs = [] ∧ json_decodes evs = []
    ∧ sleeps evs = [] ∧ logged CRITICAL evs = []).
Proof. exact (send_message_post e cfg bot message). Qed.

Lemma remove_newlines_clean s : newline ∉ chars (remove_newlines s).
Proof.
  induction s as [|c s IH]; cbn [remove_newlines chars].
  - apply not_elem_of_nil.
  - destruct (Ascii.eqb c newline) eqn:Hc; [exact IH|].
    cbn [chars]. apply not_elem_of_cons. split; [|exact IH].
    intros <-. now rewrite Ascii.eqb_refl in Hc.
Qed.

Lemma remove_newlines_id s : newline ∉ chars s → remove_newlines s = s.
Proof.
  induction s as [|c s IH]; cbn [remove_newlines chars]; [reflexivity|].
  intros Hnot. apply not_elem_of_cons in Hnot as [Hc Hs].
  destruct (Ascii.eqb_spec c newline) as [->|_]; [congruence|].
  now rewrite IH.
Qed.

(** X3: the first thing [send_message] does is to write a debug record
    with the message stripped of its newline characters: the text of
    that record has no newline, and a message without newlines is
    logged as it is. *)
Theorem send_message_log_line e cfg bot message w :
  (∃ rest,
     (send_message e cfg bot message w).2 =
       w ++ (Log DEBUG ("Отправка сообщения в телеграм: " +:+ remove_newlines message)
               :: rest))
  ∧ (newline ∉ chars (remove_newlines message))
  ∧ (newline ∉ chars message → remove_newlines message = message).
Proof.
  split; [|split; [apply remove_newlines_clean|apply remove_newlines_id]].
  unfold send_message. run.
  destruct (bot_send_message e bot (TELEGRAM_CHAT_ID cfg) message) as [sent|ex].
  - eexists. cbn [snd]. rewrite <- !app_assoc. reflexivity.
  - destruct (isa ex Unauthorized); [|destruct (isa ex BadRequest);
      [|destruct (isa ex TelegramError)]];
      eexists; cbn [snd]; rewrite <- !app_assoc; reflexivity.
Qed.

(** *** The fetch *)

(** X4: [get_api_answer] returns exactly when [current_timestamp] is
    truthy, the request got a response with status 200 and the body
    decoded; it then returns the decoded body as it is, after one
    request with [from_date = current_timestamp] and one decoding. *)
Theorem get_api_answer_returns e cfg current_timestamp body w w' :
  get_api_answer e cfg current_timestamp w = (Return body, w') ↔
  truthy current_timestamp = true
  ∧ ∃ resp,
      requests_get e ENDPOINT (HEADERS cfg) current_timestamp = Return resp
      ∧ status_code resp = 200%Z
      ∧ json_body resp = Return body
      ∧ w' = w ++ [Log INFO "Получение ответа от сервера";
                   HttpGet ENDPOINT (HEADERS cfg) current_timestamp;
                   JsonDecode;
                   Log INFO "Получен ответ от сервера"].
Proof.
  split.
  - unfold get_api_answer. run.
    destruct (truthy current_timestamp); [|discriminate].
    destruct (requests_get e ENDPOINT (HEADERS cfg) current_timestamp) as [resp|ex].
    + destruct (status_code resp =? 200)%Z eqn:Hcode; cbn [negb]; [|discriminate].
      apply Z.eqb_eq in Hcode.
      destruct (json_body resp) as [v|ex] eqn:Hbody.
      * intros [= -> <-]. split; [reflexivity|]. exists resp.
        rewrite <- !app_assoc. auto.
      * destruct (isa ex JSONDecodeError); discriminate.
    + destruct (isa ex RequestException); [discriminate|].
      destruct (isa ex ValueError); [discriminate|].
      destruct (isa ex TypeError); discriminate.
  - intros (Htruthy & resp & Hget & Hcode & Hbody & ->).
    now apply get_api_answer_ok with resp.
Qed.

(** X5: when [requests.get] raises, the fetch fails without decoding
    anything.  A [RequestException], [ValueError] or [TypeError] is
    replaced by the [TypeError] of [raise None], its text going to one
    error record; an exception of another class leaves the function
    unchanged and unlogged. *)
Theorem get_api_answer_request_raises e cfg current_timestamp ex w :
  truthy current_timestamp = true →
  requests_get e ENDPOINT (HEADERS cfg) current_timestamp = Raise ex →
  let handled := isa ex RequestException || isa ex ValueError || isa ex TypeError in
  ∃ evs,
    get_api_answer e cfg current_timestamp w =
      (Raise (if handled then raise_None else ex), w ++ evs)
    ∧ http_requests evs = [current_timestamp]
    ∧ json_decodes evs = []
    ∧ if handled then ∃ prefix, logged ERROR evs = [prefix +:+ exn_str ex]
      else logged ERROR evs = [].
Proof.
  intros Htruthy Hget handled. subst handled.
  unfold get_api_answer. run. rewrite Htruthy, Hget.
  destruct (isa ex RequestException);
    [|destruct (isa ex ValueError); [|destruct (isa ex TypeError)]];
    cbn [orb]; eexists; rewrite <- !app_assoc;
    (split; [reflexivity|]); repeat split; cbn; eauto.
Qed.

(** X6: when the body of a 200 response does not decode, a
    [json.JSONDecodeError] (the one of [requests] included) is replaced
    by the [TypeError] of [raise None] after one error record; any
    other exception of [response.json()] leaves the function
    unchanged. *)
Theorem get_api_answer_decode_raises e cfg current_timestamp resp ex w :
  truthy current_timestamp = true →
  requests_get e ENDPOINT (HEADERS cfg) current_timestamp = Return resp →
  status_code resp = 200%Z →
  json_body resp = Raise ex →
  get_api_answer e cfg current_timestamp w =
    (Raise (if isa ex JSONDecodeError then raise_None else ex),
     w ++ [Log INFO "Получение ответа от сервера";
           HttpGet ENDPOINT (HEADERS cfg) current_timestamp;
           JsonDecode]
       ++ if isa ex JSONDecodeError
          then [Log ERROR "Ответ от сервера должен быть в формате JSON"]
          else []).
Proof.
  intros Htruthy Hget Hcode Hbody.
  unfold get_api_answer. run. rewrite Htruthy, Hget, Hcode, Z.eqb_refl, Hbody.
  cbn [negb].
  destruct (isa ex JSONDecodeError); rewrite <- !app_assoc; [reflexivity|].
  now rewrite app_nil_r.
Qed.

Lemma get_api_answer_post e cfg current_timestamp :
  post (get_api_answer e cfg current_timestamp) (λ r evs,
    http_requests evs = (if truthy current_timestamp then [current_timestamp] else [])
    ∧ (∀ body, r = Return body → json_decodes evs = [()])
    ∧ length (json_decodes evs) ≤ 1
    ∧ sent_messages evs = [] ∧ sleeps evs = [] ∧ logged CRITICAL evs = []).
Proof.
  unfold post.
  destruct (truthy current_timestamp) eqn:Htruthy.
  2:{ eexists _, _. split.
      - intros w. unfold get_api_answer. run. rewrite Htruthy. reflexivity.
      - repeat split; try (intros ? [=]); cbn; lia. }
  destruct (requests_get e ENDPOINT (HEADERS cfg) current_timestamp) as [resp|ex] eqn:Hget.
  - destruct (status_code resp =? 200)%Z eqn:Hcode.
    + destruct (json_body resp) as [v|ex] eqn:Hbody;
        [|destruct (isa ex JSONDecodeError) eqn:Hj];
        (eexists _, _; split;
         [ intros w; unfold get_api_answer; run;
           rewrite Htruthy, Hget, Hcode, Hbody, ?Hj; cbn [negb];
           rewrite <- ?app_assoc; reflexivity
         | repeat split; try (intros ? [=]); cbn; try lia; reflexivity ]).
    + eexists _, _. split.
      * intros w. unfold get_api_answer. run. rewrite Htruthy, Hget, Hcode. cbn [negb].
        rewrite <- ?app_assoc. reflexivity.
      * repeat split; try (intros ? [=]); cbn; lia.
  - destruct (isa ex RequestException) eqn:Hr;
      [|destruct (isa ex ValueError) eqn:Hv; [|destruct (isa ex TypeError) eqn:Ht]];
      (eexists _, _; split;
       [ intros w; unfold get_api_answer; run;
         rewrite Htruthy, Hget, ?Hr, ?Hv, ?Ht;
         rewrite <- ?app_assoc; reflexivity
       | repeat split; try (intros ? [=]); cbn; try lia; reflexivity ]).
Qed.

(** X7: in every case the fetch issues one request with
    [from_date = current_timestamp] when that value is truthy and none
    when it is falsy, decodes at most one body and exactly one when it
    returns, and never sends a message, sleeps or writes a critical
    record. *)
Theorem get_api_answer_effects e cfg current_timestamp :
  post (get_api_answer e cfg current_timestamp) (λ r evs,
    http_requests evs = (if truthy current_timestamp then [current_timestamp] else [])
    ∧ (∀ body, r = Return body → json_decodes evs = [()])
    ∧ length (json_decodes evs) ≤ 1
    ∧ sent_messages evs = [] ∧ sleeps evs = [] ∧ logged CRITICAL evs = []).
Proof. exact (get_api_answer_post e cfg current_timestamp). Qed.



(** *** The validator *)

(** X8: whatever the validator returns is a list, and it is the value
    under the key [homeworks] of a response that is a dict: no other
    response passes. *)
Theorem check_response_returns_list response v w w' :
  check_response py_repr response w = (Return v, w') →
  ∃ (d : gmap string json) l,
    response = JDict d ∧ d !! "homeworks" = Some (JList l) ∧ v = JList l.
Proof.
  unfold check_response. run. intros H.
  destruct response as [| | | | s | l | d]; cbn [contains getitem] in H;
    try discriminate H.
  - destruct (is_substring "error" s); [discriminate H|].
    destruct (is_substring "code" s); discriminate H.
  - destruct (existsb _ l); [discriminate H|].
    destruct (existsb _ l); discriminate H.
  - exists d.
    destruct (d !! "homeworks") as [hw|] eqn:Hhw.
    + destruct hw as [| | | | | l |];
        try (exfalso; revert H; repeat case_match; cbn; intros; simplify_eq; fail).
      exists l. split; [reflexivity|]. split; [reflexivity|].
      revert H. repeat case_match; cbn; intros; simplify_eq; reflexivity.
    + exfalso. revert H. repeat case_match; cbn; intros; simplify_eq.
Qed.

Lemma check_response_list (d : gmap string json) l w :
  d !! "homeworks" = Some (JList l) →
  (∀ err, d !! "error" = Some err → contains "error" err = Return false) →
  (is_Some (d !! "code") → is_Some (d !! "message")) →
  check_response py_repr (JDict d) w =
    (Return (JList l),
     w ++ [Log DEBUG "Проверка ответа сервера на корректность"]
       ++ match d !! "code", d !! "message" with
          | Some _, Some message => [Log INFO (py_str py_repr message)]
          | _, _ => []
          end
       ++ [Log DEBUG "Ответ сервера проверен на корректность"]).
Proof.
  intros Hhw Herror Hcode.
  unfold check_response. run. cbn [contains getitem]. rewrite Hhw.
  assert (match d !! "error" with
          | Some err => contains "error" err = Return false
          | None => True
          end) as Herr by (destruct (d !! "error"); auto).
  destruct (d !! "error") as [err|].
  - rewrite bool_decide_eq_true_2 by eauto. rewrite Herr.
    destruct (d !! "code") as [code|].
    + rewrite bool_decide_eq_true_2 by eauto.
      destruct Hcode as [message ->]; [eauto|]. cbn.
      now rewrite <- !app_assoc.
    + rewrite bool_decide_eq_false_2 by (intros [? ?]; discriminate). cbn.
      now rewrite <- !app_assoc.
  - rewrite bool_decide_eq_false_2 by (intros [? ?]; discriminate).
    destruct (d !! "code") as [code|].
    + rewrite bool_decide_eq_true_2 by eauto.
      destruct Hcode as [message ->]; [eauto|]. cbn.
      now rewrite <- !app_assoc.
    + rewrite bool_decide_eq_false_2 by (intros [? ?]; discriminate). cbn.
      now rewrite <- !app_assoc.
Qed.

(** X9: a dict whose [homeworks] is a list passes when the test
    ['error' in response['error']] gives [False] for its [error] value
    if it has one (a dict, list or string in which ['error'] does not
    occur) and when it has a [message] if it has a [code].  The list is
    returned as it is, whatever its length; the log gets the two debug
    records and, between them, the [message] at info level when there
    is a [code]. *)
Theorem check_response_accepts_list (d : gmap string json) l w :
  d !! "homeworks" = Some (JList l) →
  (∀ err, d !! "error" = Some err → contains "error" err = Return false) →
  (is_Some (d !! "code") → is_Some (d !! "message")) →
  check_response py_repr (JDict d) w =
    (Return (JList l),
     w ++ [Log DEBUG "Проверка ответа сервера на корректность"]
       ++ match d !! "code", d !! "message" with
          | Some _, Some message => [Log INFO (py_str py_repr message)]
          | _, _ => []
          end
       ++ [Log DEBUG "Ответ сервера проверен на корректность"]).
Proof. apply check_response_list. Qed.


(** X10: a dict with a [code] and no [message], for whose [error]
    value, if it has one, the test ['error' in response['error']] gives
    [False] (a dict, list or string in which ['error'] does not occur),
    fails with the [KeyError] of [response['message']] right after the
    first debug record, even when its [homeworks] is a valid list. *)
Theorem check_response_code_without_message (d : gmap string json) w :
  is_Some (d !! "code") →
  d !! "message" = None →
  (∀ err, d !! "error" = Some err → contains "error" err = Return false) →
  check_response py_repr (JDict d) w =
    (Raise (mk_exn KeyError (py_repr (JStr "message"))),
     w ++ [Log DEBUG "Проверка ответа сервера на корректность"]).
Proof.
  intros Hcode Hmessage Herror.
  unfold check_response. run. cbn [contains getitem]. rewrite Hmessage.
  rewrite (bool_decide_eq_true_2 (is_Some (d !! "code"))) by exact Hcode.
  destruct (d !! "error") as [err|] eqn:Herr.
  - rewrite bool_decide_eq_true_2 by eauto. now rewrite (Herror err eq_refl).
  - now rewrite bool_decide_eq_false_2 by (intros [? ?]; discriminate).
Qed.

(** X11: a dict without [error] and [code] whose [homeworks] is not a
    list fails with the [TypeError] of [raise None].  The error record
    names the type of the response, which is [dict], not the type of
    the value found; for [null] an info record comes first. *)
Theorem check_response_not_a_list (d : gmap string json) v w :
  d !! "homeworks" = Some v →
  is_list v = false →
  d !! "error" = None →
  d !! "code" = None →
  check_response py_repr (JDict d) w =
    (Raise raise_None,
     w ++ [Log DEBUG "Проверка ответа сервера на корректность"]
       ++ (if is_None v then [Log INFO "Заданий нет"] else [])
       ++ [Log ERROR ("Тип - <class " +:+ squote +:+ "dict" +:+ squote
                      +:+ "> не является списком")]).
Proof.
  intros Hhw Hlist Herror Hcode.
  unfold check_response. run. cbn [contains getitem]. rewrite Hhw, Herror, Hcode.
  rewrite !bool_decide_eq_false_2 by (intros [? ?]; discriminate).
  rewrite Hlist. cbn [negb].
  destruct (is_None v); cbn; now rewrite <- !app_assoc.
Qed.

(** *** The formatter *)

Lemma parse_status_pure homework :
  pure_up_to_logging (parse_status py_repr homework).
Proof.
  unfold parse_status.
  repeat first
    [ apply pure_ret | apply pure_lift | apply pure_logging
    | apply pure_if
    | apply pure_bind; [|intros ?] ].
Qed.

Lemma HOMEWORK_STATUSES_keys status verdict :
  HOMEWORK_STATUSES !! status = Some verdict →
  (status, verdict) ∈
    [ ("approved", "Работа проверена: ревьюеру всё понравилось. Ура!");
      ("reviewing", "Работа взята на проверку ревьюером.");
      ("rejected", "Работа проверена: у ревьюера есть замечания.") ].
Proof. apply elem_of_list_to_map_2. Qed.

(** X12: when the formatter returns, the record is a dict with a
    [homework_name] and a string [status] that is one of [approved],
    [reviewing], [rejected]; the text is the template filled with
    [str] of the name and the verdict of that status, and the only
    record written is the debug one. *)
Theorem parse_status_returns homework text w w' :
  parse_status py_repr homework w = (Return text, w') →
  ∃ (d : gmap string json) name status verdict,
    homework = JDict d
    ∧ d !! "homework_name" = Some name
    ∧ d !! "status" = Some (JStr status)
    ∧ (status, verdict) ∈
        [ ("approved", "Работа проверена: ревьюеру всё понравилось. Ура!");
          ("reviewing", "Работа взята на проверку ревьюером.");
          ("rejected", "Работа проверена: у ревьюера есть замечания.") ]
    ∧ text = "Изменился статус проверки работы " +:+ dquote +:+ py_str py_repr name
             +:+ dquote +:+ ". " +:+ verdict
    ∧ w' = w ++ [Log DEBUG "Извлекаю статус домашнего задания"].
Proof.
  unfold parse_status. run. intros H.
  destruct homework as [| | | | | |d]; cbn [getitem] in H; try discriminate H.
  destruct (d !! "homework_name") as [name|] eqn:Hname; [|discriminate H].
  destruct (d !! "status") as [status|] eqn:Hstatus; [|discriminate H].
  destruct status as [| | | |s| |];
    cbn [in_HOMEWORK_STATUSES HOMEWORK_STATUSES_getitem unhashable negb] in H;
    try discriminate H.
  destruct (HOMEWORK_STATUSES !! s) as [verdict|] eqn:Hverdict.
  - rewrite bool_decide_eq_true_2 in H by eauto. cbn [negb] in H.
    injection H as <- <-.
    exists d, name, s, verdict.
    split_and!; auto using HOMEWORK_STATUSES_keys.
  - rewrite bool_decide_eq_false_2 in H by (intros [? ?]; discriminate).
    discriminate H.
Qed.

(** X13: a record without [homework_name] fails with the [KeyError] of
    that key whatever its status is, and a record with a name and
    without [status] fails with the [KeyError] of [status]; in both
    cases only the debug record is written. *)
Theorem parse_status_missing_key (d : gmap string json) w :
  (d !! "homework_name" = None →
   parse_status py_repr (JDict d) w =
     (Raise (mk_exn KeyError (py_repr (JStr "homework_name"))),
      w ++ [Log DEBUG "Извлекаю статус домашнего задания"]))
  ∧ (is_Some (d !! "homework_name") → d !! "status" = None →
     parse_status py_repr (JDict d) w =
       (Raise (mk_exn KeyError (py_repr (JStr "status"))),
        w ++ [Log DEBUG "Извлекаю статус домашнего задания"])).
Proof.
  split.
  - intros Hname. unfold parse_status. run. cbn [getitem]. now rewrite Hname.
  - intros [name Hname] Hstatus. unfold parse_status. run. cbn [getitem].
    now rewrite Hname, Hstatus.
Qed.


(** *** Computations that leave no mark but log records *)

Lemma silent_ret {A} (a : A) : post (ret a) (λ _ evs, silent evs).
Proof. apply post_ret, silent_nil. Qed.

Lemma silent_lift {A} (r : result A) : post (lift r) (λ _ evs, silent evs).
Proof. apply post_lift, silent_nil. Qed.

Lemma silent_logging lvl msg :
  lvl ≠ CRITICAL → post (logging lvl msg) (λ _ evs, silent evs).
Proof.
  intros Hlvl. apply post_emit. repeat split.
  unfold logged. cbn. now rewrite bool_decide_eq_false_2.
Qed.

Lemma silent_raise_logging_error {A} msg :
  post (@raise_logging_error A msg) (λ _ evs, silent evs).
Proof.
  exists (Raise raise_None), [Log ERROR msg]. split; [reflexivity|]. repeat split.
Qed.

Lemma silent_bind {A B} (m : M A) (k : A → M B) :
  post m (λ _ evs, silent evs) → (∀ a, post (k a) (λ _ evs, silent evs)) →
  post (bind m k) (λ _ evs, silent evs).
Proof.
  intros Hm Hk. eapply post_bind; [exact Hm| |auto].
  intros a evs1 H1. eapply post_conseq; [apply Hk|].
  intros r evs2 H2. now apply silent_app.
Qed.

Lemma silent_if {A} (b : bool) (m1 m2 : M A) :
  post m1 (λ _ evs, silent evs) → post m2 (λ _ evs, silent evs) →
  post (if b then m1 else m2) (λ _ evs, silent evs).
Proof. now destruct b. Qed.

Lemma check_response_silent response :
  post (check_response py_repr response) (λ _ evs, silent evs).
Proof.
  unfold check_response.
  repeat first
    [ apply silent_ret | apply silent_lift | apply silent_logging; discriminate
    | apply silent_raise_logging_error
    | apply silent_if
    | apply silent_bind; [|intros ?] ].
Qed.

Lemma parse_status_silent homework :
  post (parse_status py_repr homework) (λ _ evs, silent evs).
Proof.
  unfold parse_status.
  repeat first
    [ apply silent_ret | apply silent_lift | apply silent_logging; discriminate
    | apply silent_if
    | apply silent_bind; [|intros ?] ].
Qed.

(** *** One iteration *)

(** What the notifying branch of the loop body leaves in the trace. *)
Lemma notify_post e cfg bot l :
  post (homework <- lift (getitem0 l);;
        message <- parse_status py_repr homework;;
        send_message e cfg bot message;;
        ret ())
       (λ _ evs, http_requests evs = [] ∧ sleeps evs = []
                 ∧ logged CRITICAL evs = [] ∧ length (sent_messages evs) ≤ 1).
Proof.
  eapply post_bind; [apply silent_lift| |].
  2:{ intros ex evs (H1 & H2 & H3 & H4 & H5). rewrite H1, H3, H4, H5. cbn. auto with lia. }
  intros homework evs0 (A1 & A2 & A3 & A4 & A5).
  eapply post_bind; [apply parse_status_silent| |].
  2:{ intros ex evs (H1 & H2 & H3 & H4 & H5).
      rewrite http_requests_app, sleeps_app, logged_app, sent_messages_app.
      rewrite A1, A3, A4, A5, H1, H3, H4, H5. cbn. auto with lia. }
  intros message evs1 (B1 & B2 & B3 & B4 & B5).
  eapply post_bind; [apply send_message_post| |].
  2:{ intros ex evs (H1 & H2 & H3 & H4 & H5).
      rewrite !http_requests_app, !sleeps_app, !logged_app, !sent_messages_app.
      rewrite A1, A3, A4, A5, B1, B3, B4, B5, H1, H2, H4, H5. cbn. auto with lia. }
  intros sent evs2 (C1 & C2 & C3 & C4 & C5).
  apply post_ret.
  rewrite !http_requests_app, !sleeps_app, !logged_app, !sent_messages_app.
  rewrite A1, A3, A4, A5, B1, B3, B4, B5, C1, C2, C4, C5. cbn. auto with lia.
Qed.

Lemma cycle_post e cfg bot current_timestamp :
  post (cycle py_repr e cfg bot current_timestamp) (λ r evs,
    http_requests evs = (if truthy current_timestamp then [current_timestamp] else [])
    ∧ length (sent_messages evs) ≤ 1
    ∧ logged CRITICAL evs = []
    ∧ sleeps evs = if r is Return _ then [RETRY_TIME] else []).
Proof.
  unfold cycle.
  eapply post_bind; [apply get_api_answer_post| |].
  2:{ intros ex evs (H1 & _ & _ & H4 & H5 & H6). rewrite H1, H4, H5, H6. cbn.
      auto with lia. }
  intros response evs1 (A1 & _ & _ & A4 & A5 & A6).
  eapply post_bind; [apply check_response_silent| |].
  2:{ intros ex evs (H1 & H2 & H3 & H4 & H5).
      rewrite http_requests_app, sleeps_app, logged_app, sent_messages_app.
      rewrite A1, A4, A5, A6, H1, H3, H4, H5, app_nil_r. cbn. auto with lia. }
  intros homeworks evs2 (B1 & _ & B3 & B4 & B5).
  eapply post_bind; [apply silent_logging; discriminate| |].
  2:{ intros ex evs (H1 & H2 & H3 & H4 & H5).
      rewrite !http_requests_app, !sleeps_app, !logged_app, !sent_messages_app.
      rewrite A1, A4, A5, A6, B1, B3, B4, B5, H1, H3, H4, H5, !app_nil_r. cbn.
      auto with lia. }
  intros [] evs3 (C1 & _ & C3 & C4 & C5).
  eapply post_bind with
    (Q1 := λ _ evs, http_requests evs = [] ∧ sleeps evs = []
                    ∧ logged CRITICAL evs = [] ∧ length (sent_messages evs) ≤ 1).
  { destruct homeworks as [| | | | |l|];
      try (eapply post_conseq; [apply silent_logging; discriminate|];
           intros r evs (H1 & H2 & H3 & H4 & H5); rewrite H1, H3, H4, H5; cbn;
           auto with lia).
    destruct (bool_decide (0 < length l) && truthy (JList l)).
    - apply notify_post.
    - eapply post_conseq; [apply silent_logging; discriminate|].
      intros r evs (H1 & H2 & H3 & H4 & H5). rewrite H1, H3, H4, H5. cbn.
      auto with lia. }
  2:{ intros ex evs (H1 & H2 & H3 & H4).
      rewrite !http_requests_app, !sleeps_app, !logged_app, !sent_messages_app,
        !length_app.
      rewrite A1, A4, A5, A6, B1, B3, B4, B5, C1, C3, C4, C5, H1, H2, H3, !app_nil_r.
      cbn. auto with lia. }
  intros [] evs4 (D1 & D2 & D3 & D4).
  eapply post_bind; [apply silent_lift| |].
  2:{ intros ex evs (H1 & H2 & H3 & H4 & H5).
      rewrite !http_requests_app, !sleeps_app, !logged_app, !sent_messages_app,
        !length_app.
      rewrite A1, A4, A5, A6, B1, B3, B4, B5, C1, C3, C4, C5, D1, D2, D3,
        H1, H3, H4, H5, !app_nil_r.
      cbn. auto with lia. }
  intros current_date evs5 (E1 & _ & E3 & E4 & E5).
  eapply post_bind;
    [apply post_emit with (Q := λ r evs, r = Return () ∧ evs = [Sleep RETRY_TIME]);
     split; reflexivity| |].
  2:{ intros ex evs [H _]. discriminate H. }
  intros [] evs6 [_ ->].
  apply post_ret.
  rewrite !http_requests_app, !sleeps_app, !logged_app, !sent_messages_app,
    !length_app.
  rewrite A1, A4, A5, A6, B1, B3, B4, B5, C1, C3, C4, C5, D1, D2, D3,
    E1, E3, E4, E5, !app_nil_r.
  cbn. auto with lia.
Qed.


Lemma iteration_post e cfg bot current_timestamp :
  ∃ p evs,
    (∀ w, iteration py_repr e cfg bot current_timestamp w = (p, w ++ evs))
    ∧ http_requests evs = (if truthy current_timestamp then [current_timestamp] else [])
    ∧ length (sent_messages evs) ≤ 1
    ∧ ((∃ current_date, p = Running current_date
          ∧ sleeps evs = [RETRY_TIME] ∧ logged CRITICAL evs = [])
       ∨ (p = Running current_timestamp
          ∧ sleeps evs = [] ∧ ∃ msg, logged CRITICAL evs = [msg])).
Proof.
  destruct (cycle_post e cfg bot current_timestamp)
    as (r & evs & Hcycle & Hhttp & Hsent & Hcritical & Hsleeps).
  destruct r as [current_date|ex].
  - exists (Running current_date), evs. split; [|split; [|split]]; auto.
    + intros w. unfold iteration. now rewrite Hcycle.
    + left. eauto.
  - exists (Running current_timestamp),
      (evs ++ [Log CRITICAL ("Сбой в работе программы: " +:+ exn_str ex)]).
    split; [|split; [|split]].
    + intros w. unfold iteration. rewrite Hcycle, isa_Exception.
      now rewrite app_assoc.
    + rewrite http_requests_app, Hhttp. cbn. apply app_nil_r.
    + rewrite sent_messages_app. cbn. now rewrite app_nil_r.
    + right. split; [reflexivity|].
      rewrite sleeps_app, logged_app, Hsleeps, Hcritical. cbn. eauto.
Qed.

(** X14: an iteration ends in one of two ways.  Either it sleeps
    [RETRY_TIME] seconds once and writes no critical record, or it
    writes exactly one critical record, keeps [current_timestamp] and
    does not sleep at all.  In both cases it issues one request with
    [from_date = current_timestamp] (none when that value is falsy) and
    sends at most one message. *)
Theorem iteration_sleeps_or_fails e cfg bot current_timestamp :
  ∃ p evs,
    (∀ w, iteration py_repr e cfg bot current_timestamp w = (p, w ++ evs))
    ∧ http_requests evs = (if truthy current_timestamp then [current_timestamp] else [])
    ∧ length (sent_messages evs) ≤ 1
    ∧ ((∃ current_date, p = Running current_date
          ∧ sleeps evs = [RETRY_TIME] ∧ logged CRITICAL evs = [])
       ∨ (p = Running current_timestamp
          ∧ sleeps evs = [] ∧ ∃ msg, logged CRITICAL evs = [msg])).
Proof. exact (iteration_post e cfg bot current_timestamp). Qed.

(** *** The loop *)

(** X16: over any number of iterations, each iteration either slept
    or wrote a critical record, never both: the sleeps and the critical
    records together are as many as the iterations.  The loop issued at
    most one request and sent at most one message per iteration, and
    every sleep lasted [RETRY_TIME]. *)
Theorem loop_accounting es cfg bot current_timestamp :
  ∃ current_timestamp' evs,
    (∀ w, loop py_repr es cfg bot (Running current_timestamp) w =
            (Running current_timestamp', w ++ evs))
    ∧ length (sleeps evs) + length (logged CRITICAL evs) = length es
    ∧ length (http_requests evs) ≤ length es
    ∧ length (sent_messages evs) ≤ length es
    ∧ Forall (λ n, n = RETRY_TIME) (sleeps evs).
Proof.
  revert current_timestamp.
  induction es as [|e es IH]; intros current_timestamp.
  - exists current_timestamp, []. split; [|repeat split; cbn; auto].
    intros w. cbn. now rewrite app_nil_r.
  - destruct (iteration_post e cfg bot current_timestamp)
      as (p & evs1 & Hiter & Hhttp & Hsent & Hcases).
    assert (∃ c, p = Running c) as [c ->].
    { destruct Hcases as [(c & -> & _)|(-> & _)]; eauto. }
    destruct (IH c) as (c' & evs2 & Hloop & Hcount & Hreq & Hmsg & Hall).
    exists c', (evs1 ++ evs2). split.
    { intros w. cbn [loop]. rewrite Hiter, Hloop. now rewrite app_assoc. }
    rewrite sleeps_app, logged_app, http_requests_app, sent_messages_app, !length_app.
    assert (length (http_requests evs1) ≤ 1) as Hone
      by (rewrite Hhttp; destruct (truthy current_timestamp); cbn; lia).
    cbn [length].
    destruct Hcases as [(c0 & _ & Hs & Hc)|(_ & Hs & msg & Hc)]; rewrite Hs, Hc;
      cbn [length app]; (split_and!; [lia|lia|lia|]).
    + constructor; [reflexivity|exact Hall].
    + exact Hall.
Qed.

(** X17: once [current_timestamp] is falsy the loop is stuck.  Every
    later iteration writes the same info and critical record, issues no
    request, sends nothing and does not sleep, and the value stays. *)
Theorem loop_falsy_timestamp es cfg bot current_timestamp w :
  truthy current_timestamp = false →
  loop py_repr es cfg bot (Running current_timestamp) w =
    (Running current_timestamp,
     w ++ concat (replicate (length es)
            [Log INFO "Получение ответа от сервера";
             Log CRITICAL ("Сбой в работе программы: "
                           +:+ "time.time() takes no arguments (1 given)")])).
Proof.
  intros Hfalsy. revert w.
  induction es as [|e es IH]; intros w; cbn [loop length replicate concat].
  - now rewrite app_nil_r.
  - assert (iteration py_repr e cfg bot current_timestamp w =
              (Running current_timestamp,
               w ++ [Log INFO "Получение ответа от сервера";
                     Log CRITICAL ("Сбой в работе программы: "
                                   +:+ "time.time() takes no arguments (1 given)")]))
      as ->.
    { unfold iteration, cycle, get_api_answer. run. rewrite Hfalsy.
      rewrite <- !app_assoc. reflexivity. }
    rewrite IH. now rewrite <- app_assoc.
Qed.

(** *** Startup *)

(** X18: [main] returns only when all three values are missing; it
    then returns 0 after one critical record, without building the bot
    and without a single iteration. *)
Theorem main_returns_iff s es cfg w value w' :
  main py_repr s es cfg w = (Returned value, w') ↔
  PRACTICUM_TOKEN cfg = None ∧ TELEGRAM_CHAT_ID cfg = None ∧ TELEGRAM_TOKEN cfg = None
  ∧ value = 0%Z
  ∧ w' = w ++ [Log CRITICAL
                 ("Проверьте переменные окружения "
                  +:+ "(PRACTICUM_TOKEN, TELEGRAM_TOKEN, TELEGRAM_CHAT_ID")].
Proof.
  unfold main. split.
  - destruct (check_tokens cfg) eqn:Htokens; cbn [negb].
    + destruct (new_Bot s (TELEGRAM_TOKEN cfg)) as [bot|ex]; [|discriminate].
      destruct (loop_Running py_repr es cfg bot (JInt (time_time s)) w)
        as (c & w0 & ->). discriminate.
    + apply check_tokens_false_iff in Htokens as (? & ? & ?).
      intros [= <- <-]. auto.
  - intros (H1 & H2 & H3 & -> & ->).
    now rewrite (proj2 (check_tokens_false_iff cfg)).
Qed.

(** X19: the only exception that ends [main] is one raised by
    [Bot(token=TELEGRAM_TOKEN)], which is built outside the [try]
    block: [main] then ends with nothing written to the log.  Inside
    the loop nothing escapes. *)
Theorem main_uncaught_iff s es cfg w ex w' :
  main py_repr s es cfg w = (Uncaught ex, w') ↔
  check_tokens cfg = true ∧ new_Bot s (TELEGRAM_TOKEN cfg) = Raise ex ∧ w' = w.
Proof.
  unfold main. split.
  - destruct (check_tokens cfg); cbn [negb]; [|discriminate].
    destruct (new_Bot s (TELEGRAM_TOKEN cfg)) as [bot|ex0].
    + destruct (loop_Running py_repr es cfg bot (JInt (time_time s)) w)
        as (c & w0 & ->). discriminate.
    + intros [= <- <-]. auto.
  - intros (-> & -> & ->). reflexivity.
Qed.


(** *** An iteration that announces a verdict *)






End Behaviour.

(** ** The further properties at sample inputs *)

Lemma send_message_log_line_witness :
  (newline ∉ chars "hello") ∧ remove_newlines "hello" = "hello".
Proof.
  assert (newline ∉ chars "hello") as Hclean.
  { intros H. repeat (apply elem_of_cons in H as [H|H]; [discriminate H|]).
    now apply elem_of_nil in H. }
  split; [exact Hclean|].
  exact (proj2 (proj2 (send_message_log_line
                         (env_of (Raise connection_refused) (Return 1%Z))
                         sample_config sample_bot "hello" []))
           Hclean).
Defined.

Lemma get_api_answer_returns_witness :
  truthy (JInt 1700000000) = true
  ∧ get_api_answer (env_of (Return (ok_response envelope_hw1)) (Return 1%Z))
      sample_config (JInt 1700000000) [] =
    (Return envelope_hw1,
     [] ++ [Log INFO "Получение ответа от сервера";
            HttpGet ENDPOINT (HEADERS sample_config) (JInt 1700000000);
            JsonDecode;
            Log INFO "Получен ответ от сервера"]).
Proof.
  split; [reflexivity|].
  apply (proj2 (get_api_answer_returns
                  (env_of (Return (ok_response envelope_hw1)) (Return 1%Z))
                  sample_config (JInt 1700000000) envelope_hw1 [] _)).
  split; [reflexivity|]. exists (ok_response envelope_hw1).
  repeat split.
Defined.

Lemma get_api_answer_request_raises_witness :
  ∃ evs,
    get_api_answer (env_of (Raise connection_refused) (Return 1%Z))
      sample_config (JInt 1700000000) [] =
      (Raise raise_None, [] ++ evs)
    ∧ http_requests evs = [JInt 1700000000]
    ∧ json_decodes evs = []
    ∧ ∃ prefix, logged ERROR evs = [prefix +:+ "Connection refused"].
Proof.
  exact (get_api_answer_request_raises
           (env_of (Raise connection_refused) (Return 1%Z))
           sample_config (JInt 1700000000) connection_refused [] eq_refl eq_refl).
Defined.

Lemma get_api_answer_decode_raises_witness :
  get_api_answer
    (env_of (Return (mk_response 200
                       (Raise (mk_exn RequestsJSONDecodeError "Expecting value"))))
       (Return 1%Z))
    sample_config (JInt 1700000000) [] =
    (Raise raise_None,
     [] ++ [Log INFO "Получение ответа от сервера";
            HttpGet ENDPOINT (HEADERS sample_config) (JInt 1700000000);
            JsonDecode]
        ++ [Log ERROR "Ответ от сервера должен быть в формате JSON"]).
Proof.
  exact (get_api_answer_decode_raises
           (env_of (Return (mk_response 200
                              (Raise (mk_exn RequestsJSONDecodeError "Expecting value"))))
              (Return 1%Z))
           sample_config (JInt 1700000000) _ _ [] eq_refl eq_refl eq_refl eq_refl).
Defined.

Lemma check_response_returns_list_witness :
  ∃ (d : gmap string json) l,
    envelope_hw1 = JDict d ∧ d !! "homeworks" = Some (JList l)
    ∧ JList [hw1_approved] = JList l.
Proof.
  apply (check_response_returns_list repr_plain envelope_hw1 (JList [hw1_approved]) []
           [Log DEBUG "Проверка ответа сервера на корректность";
            Log DEBUG "Ответ сервера проверен на корректность"]).
  reflexivity.
Defined.

Lemma check_response_accepts_list_witness :
  check_response repr_plain (JDict envelope_notice) [] =
    (Return (JList [hw1_approved]),
     [] ++ [Log DEBUG "Проверка ответа сервера на корректность"]
        ++ [Log INFO "maintenance"]
        ++ [Log DEBUG "Ответ сервера проверен на корректность"]).
Proof.
  apply (check_response_accepts_list repr_plain envelope_notice [hw1_approved] []).
  - reflexivity.
  - intros err H. vm_compute in H. discriminate H.
  - intros _. now exists (JStr "maintenance").
Defined.

Lemma check_response_code_without_message_witness :
  check_response repr_plain (JDict envelope_code_only) [] =
    (Raise (mk_exn KeyError (repr_plain (JStr "message"))),
     [] ++ [Log DEBUG "Проверка ответа сервера на корректность"]).
Proof.
  apply (check_response_code_without_message repr_plain envelope_code_only []).
  - now exists (JStr "not_authenticated").
  - reflexivity.
  - intros err H. vm_compute in H. discriminate H.
Defined.

Lemma check_response_not_a_list_witness :
  check_response repr_plain (JDict envelope_null) [] =
    (Raise raise_None,
     [] ++ [Log DEBUG "Проверка ответа сервера на корректность"]
        ++ [Log INFO "Заданий нет"]
        ++ [Log ERROR ("Тип - <class " +:+ squote +:+ "dict" +:+ squote
                       +:+ "> не является списком")]).
Proof.
  apply (check_response_not_a_list repr_plain envelope_null JNull []); reflexivity.
Defined.

Lemma parse_status_returns_witness :
  ∃ (d : gmap string json) name status verdict,
    hw1_approved = JDict d
    ∧ d !! "homework_name" = Some name
    ∧ d !! "status" = Some (JStr status)
    ∧ (status, verdict) ∈
        [ ("approved", "Работа проверена: ревьюеру всё понравилось. Ура!");
          ("reviewing", "Работа взята на проверку ревьюером.");
          ("rejected", "Работа проверена: у ревьюера есть замечания.") ]
    ∧ "Изменился статус проверки работы " +:+ dquote +:+ "hw1" +:+ dquote
      +:+ ". Работа проверена: ревьюеру всё понравилось. Ура!" =
      "Изменился статус проверки работы " +:+ dquote +:+ py_str repr_plain name
      +:+ dquote +:+ ". " +:+ verdict
    ∧ [Log DEBUG "Извлекаю статус домашнего задания"] =
      [] ++ [Log DEBUG "Извлекаю статус домашнего задания"].
Proof.
  apply (parse_status_returns repr_plain hw1_approved _ [] _).
  reflexivity.
Defined.

Lemma parse_status_missing_key_witness :
  parse_status repr_plain (JDict hw_nameless) [] =
    (Raise (mk_exn KeyError (repr_plain (JStr "homework_name"))),
     [] ++ [Log DEBUG "Извлекаю статус домашнего задания"])
  ∧ parse_status repr_plain (JDict hw_statusless) [] =
      (Raise (mk_exn KeyError (repr_plain (JStr "status"))),
       [] ++ [Log DEBUG "Извлекаю статус домашнего задания"]).
Proof.
  split.
  - apply (proj1 (parse_status_missing_key repr_plain hw_nameless [])). reflexivity.
  - apply (proj2 (parse_status_missing_key repr_plain hw_statusless [])).
    + now exists (JStr "hw1").
    + reflexivity.
Defined.

Lemma loop_falsy_timestamp_witness :
  loop repr_plain
    [env_of (Return (ok_response envelope_hw1)) (Return 1%Z);
     env_of (Return (ok_response envelope_hw1)) (Return 1%Z)]
    sample_config sample_bot (Running JNull) [] =
    (Running JNull,
     [] ++ concat (replicate 2
             [Log INFO "Получение ответа от сервера";
              Log CRITICAL ("Сбой в работе программы: "
                            +:+ "time.time() takes no arguments (1 given)")])).
Proof.
  apply (loop_falsy_timestamp repr_plain
           [env_of (Return (ok_response envelope_hw1)) (Return 1%Z);
            env_of (Return (ok_response envelope_hw1)) (Return 1%Z)]
           sample_config sample_bot JNull []).
  reflexivity.
Defined.

Lemma main_returns_iff_witness :
  main repr_plain sample_startup [] (mk_config None None None) module_loaded =
    (Returned 0,
     module_loaded
       ++ [Log CRITICAL
             ("Проверьте переменные окружения "
              +:+ "(PRACTICUM_TOKEN, TELEGRAM_TOKEN, TELEGRAM_CHAT_ID")]).
Proof.
  apply (proj2 (main_returns_iff repr_plain sample_startup []
                  (mk_config None None None) module_loaded 0 _)).
  repeat split.
Defined.

Lemma main_uncaught_iff_witness :
  main repr_plain startup_invalid_token [] sample_config module_loaded =
    (Uncaught (mk_exn InvalidToken "Invalid token"), module_loaded).
Proof.
  apply (proj2 (main_uncaught_iff repr_plain startup_invalid_token []
                  sample_config module_loaded _ _)).
  repeat split.
Defined.



(** An [error] value that is [null] or a string with ['error'] in it is
    no nested error object, and the validator fails on it all the same:
    on the test ['error' in response['error']] or on the subscript that
    follows it. *)
Example check_response_error_null :
  check_response repr_plain
    (JDict (list_to_map [("homeworks", JList []); ("error", JNull)])) [] =
    (Raise (mk_exn TypeError
              ("argument of type " +:+ squote +:+ "NoneType" +:+ squote
               +:+ " is not iterable")),
     [Log DEBUG "Проверка ответа сервера на корректность"]).
Proof. reflexivity. Qed.

Example check_response_error_string :
  check_response repr_plain
    (JDict (list_to_map [("homeworks", JList []); ("error", JStr "some error")])) [] =
    (Raise (mk_exn TypeError "string indices must be integers"),
     [Log DEBUG "Проверка ответа сервера на корректность"]).
Proof. reflexivity. Qed.
